(** * Blueprints MCP server: session store, scope policy and HTTP handshake

    A shallow embedding of [src/auth.ts] (class [AuthManager]), of
    [HTTPTransport.handleRequest] / [getRequiredScope] and of
    [BlueprintsMCPServer.receiveMessage], followed by the properties of the
    session / authorization core.

    Conventions of the embedding.
    - A JavaScript [Date] is its time value, an integer number of
      milliseconds ([Z]); [a > b] on dates compares these numbers.  Clock
      readings are far inside the range of valid dates, so adding the
      session lifetime never leaves it.
    - Strings are byte strings.  Header values reach the handler with one
      character per byte, and method names are only compared for equality.
    - The [Map] of sessions is a [gmap string SessionData]: records are
      only ever stored under their own fresh object, so no two keys alias.
    - Reading the clock, the random source and the HMAC are inputs: the
      clock and the random strings come in an [Env], the HMAC is the one
      operation of the class [Crypto]. *)

From stdpp Require Import gmap strings list pretty.
From Stdlib Require Import ZArith String Ascii Bool.

Local Open Scope string_scope.
Local Open Scope Z_scope.

(** ** The fragment of the JavaScript runtime the handler relies on *)
Module Js.

(** Values that a property read on the scope table can produce: a string
    stored in the table, or a member inherited from [Object.prototype]
    (native functions, and [Object.prototype] itself for [__proto__]). *)
Inductive value : Type :=
| VString (s : string)
| VFunction (name : string)
| VObjectPrototype.

(** ToBoolean. *)
Definition truthy (v : value) : bool :=
  match v with
  | VString s => negb (String.eqb s "")
  | VFunction _ => true
  | VObjectPrototype => true
  end.

(** ToBoolean on [string | undefined] and [string | null]. *)
Definition truthyStr (o : option string) : bool :=
  match o with
  | Some s => negb (String.eqb s "")
  | None => false
  end.

(** ToString, as used by a template literal. *)
Definition toString (v : value) : string :=
  match v with
  | VString s => s
  | VFunction name => "function " ++ name ++ "() { [native code] }"
  | VObjectPrototype => "[object Object]"
  end.

(** The native methods every ordinary object inherits. *)
Definition Object_prototype_methods : list string :=
  [ "__defineGetter__"; "__defineSetter__"; "hasOwnProperty";
    "__lookupGetter__"; "__lookupSetter__"; "isPrototypeOf";
    "propertyIsEnumerable"; "toString"; "valueOf"; "toLocaleString" ].

(** [Object.prototype[key]]. *)
Definition Object_prototype (key : string) : option value :=
  if String.eqb key "constructor" then Some (VFunction "Object")
  else if String.eqb key "__proto__" then Some VObjectPrototype
  else if existsb (String.eqb key) Object_prototype_methods
       then Some (VFunction key)
       else None.

(** Own properties of an object literal with string values. *)
Fixpoint own (props : list (string * string)) (key : string) : option string :=
  match props with
  | [] => None
  | (k, v) :: rest => if String.eqb k key then Some v else own rest key
  end.

(** [obj[key]] for an object literal [obj = { k1: v1, ... }]: the own
    property when there is one, the inherited member otherwise. *)
Definition get (props : list (string * string)) (key : string) : option value :=
  match own props key with
  | Some s => Some (VString s)
  | None => Object_prototype key
  end.

(** [arr.includes(v)] on an array of strings (SameValueZero: a string is
    never equal to a function or an object). *)
Definition includes (arr : list string) (v : value) : bool :=
  match v with
  | VString s => existsb (String.eqb s) arr
  | VFunction _ => false
  | VObjectPrototype => false
  end.

(** [s.substring(start)]. *)
Definition substringFrom (start : nat) (s : string) : string :=
  String.substring start (String.length s - start) s.

(** [s.endsWith(search)]. *)
Definition endsWith (s search : string) : bool :=
  (String.length search <=? String.length s)%nat
  && String.eqb
       (String.substring (String.length s - String.length search) (String.length search) s)
       search.

(** [s.slice(0, -1)]. *)
Definition sliceDropLast (s : string) : string :=
  String.substring 0 (String.length s - 1) s.

(** [obj[key] = v] on an object with string values: an existing member
    keeps its place, a new one goes last. *)
Fixpoint setProp (props : list (string * string)) (key v : string) : list (string * string) :=
  match props with
  | [] => [(key, v)]
  | (k, w) :: rest =>
      if String.eqb k key then (key, v) :: rest else (k, w) :: setProp rest key v
  end.

(** [{ ...target, ...source }]. *)
Definition spread (target source : list (string * string)) : list (string * string) :=
  fold_left (λ acc member, setProp acc member.1 member.2) source target.

End Js.

(** ** The keyed hash used for session identifiers *)

(** [createHmac('sha256', secret).update(data).digest('hex')]. *)
Class Crypto := hmac_sha256_hex : string -> string -> string.

(** What one request reads from its environment. *)
Record Entropy := {
  timestamp : string;    (* Date.now().toString() *)
  random1 : string;      (* Math.random().toString(36).substring(2, 15) *)
  random2 : string       (* the second such draw *)
}.

Record Env := {
  clock : Z;             (* new Date() *)
  entropy : Entropy
}.

(** ** src/auth.ts *)
Module Auth.

Record SessionData := {
  id : string;
  userId : string;
  createdAt : Z;
  lastActivity : Z;
  scopes : list string;
  expiresAt : Z
}.

Record AuthManager := {
  sessions : gmap string SessionData;
  secret : string
}.

Definition set_sessions (am : AuthManager) (m : gmap string SessionData) : AuthManager :=
  {| sessions := m; secret := secret am |}.

Definition set_lastActivity (session : SessionData) (now : Z) : SessionData :=
  {| id := id session; userId := userId session; createdAt := createdAt session;
     lastActivity := now; scopes := scopes session; expiresAt := expiresAt session |}.

(** [new AuthManager(secret)]. *)
Definition new (secret : string) : AuthManager :=
  {| sessions := ∅; secret := secret |}.

Definition validateApiKey (apiKey : string) : bool :=
  if negb (String.prefix "bp_sk_" apiKey) then false
  else (8 <? String.length apiKey)%nat.

Definition generateSecureSessionId `{Crypto} (am : AuthManager) (e : Entropy) : string :=
  let randomPart := random1 e ++ random2 e in
  let hmac := hmac_sha256_hex (secret am) (timestamp e ++ randomPart) in
  String.substring 0 32 hmac.

Definition createSession `{Crypto} (am : AuthManager) (env : Env)
    (userId : string) (scopes : list string) : AuthManager * SessionData :=
  let sessionId := generateSecureSessionId am (entropy env) in
  let now := clock env in
  let session :=
    {| id := sessionId; userId := userId; createdAt := now; lastActivity := now;
       scopes := scopes; expiresAt := now + 30 * 60 * 1000 |} in
  (set_sessions am (<[sessionId := session]> (sessions am)), session).

Definition destroySession (am : AuthManager) (sessionId : string) : AuthManager :=
  set_sessions am (delete sessionId (sessions am)).

Definition validateSession (am : AuthManager) (now : Z) (sessionId : string)
    : AuthManager * option SessionData :=
  match sessions am !! sessionId with
  | None => (am, None)
  | Some session =>
      if now >? expiresAt session then (destroySession am sessionId, None)
      else
        let session := set_lastActivity session now in
        (set_sessions am (<[sessionId := session]> (sessions am)), Some session)
  end.

(** The parameter is declared [string]; the caller passes whatever
    [getRequiredScope] returned, hence a [Js.value]. *)
Definition hasScope (session : SessionData) (requiredScope : Js.value) : bool :=
  if Js.includes (scopes session) (Js.VString "admin") then true
  else Js.includes (scopes session) requiredScope.

Definition cleanupExpiredSessions (am : AuthManager) (now : Z) : AuthManager :=
  set_sessions am
    (filter (λ kv : string * SessionData, ¬ (now > expiresAt kv.2)) (sessions am)).

End Auth.

(** ** Protocol messages *)
Module Mcp.

(** The [id] member of a parsed request, when the body has one, for the
    identifiers the protocol allows: an integer, a string or [null].  Other
    JSON values are not represented. *)
Inductive Id : Type :=
| IdNumber (n : Z)
| IdString (s : string)
| IdNull.

Record Message := {
  id : option Id;          (* [None]: the member is absent *)
  method : string
}.

(** ToBoolean of [message.id]. *)
Definition truthyId (i : option Id) : bool :=
  match i with
  | Some (IdNumber n) => negb (n =? 0)
  | Some (IdString s) => negb (String.eqb s "")
  | Some IdNull => false
  | None => false
  end.

End Mcp.

Module Rpc.

Inductive Result : Type :=
| ServerInfo (protocolVersion name version : string)
| Processed (success : bool) (message : string).

Record Error := {
  code : Z;
  message : string;
  data : string
}.

(** A response object; a member that is [None] is absent (or
    [undefined], which [JSON.stringify] drops). *)
Record Response := {
  jsonrpc : option string;
  id : option Mcp.Id;
  result : option Result;
  error : option Error
}.

(** The object literal [{}]. *)
Definition empty : Response :=
  {| jsonrpc := None; id := None; result := None; error := None |}.

End Rpc.

(** ** BlueprintsMCPServer.receiveMessage *)
Module Server.

(** The names given to [this.server.tool] by [registerTools], in order:
    the known operations. *)
Definition registeredTools : list string :=
  [ "list_agents"; "create_agent"; "start_agent"; "stop_agent";
    "edit_agent_config"; "remove_agent"; "send_message"; "send_terminal";
    "agent_status"; "account_register"; "pay_upgrade" ].

(** Reading the members of a [Message] and building the template string
    cannot throw, so the [catch] arm of the source is never taken. *)
Definition receiveMessage (message : Mcp.Message) : Rpc.Response :=
  if Mcp.truthyId (Mcp.id message) then
    {| Rpc.jsonrpc := Some "2.0";
       Rpc.id := Mcp.id message;
       Rpc.result := Some (Rpc.Processed true ("Processed " ++ Mcp.method message));
       Rpc.error := None |}
  else Rpc.empty.

End Server.

(** ** src/blueprints-api.ts *)

Local Unset Elimination Schemes.

(** JSON values, as given to [JSON.stringify] and returned by
    [response.json()]. *)
Inductive Json : Type :=
| JNull
| JBool (b : bool)
| JNumber (n : Z)
| JString (s : string)
| JArray (items : list Json)
| JObject (members : list (string * Json)).

Local Set Elimination Schemes.

Module Api.

Record Client := {
  baseUrl : string;
  apiKey : string
}.

(** [new BlueprintsAPIClient(baseUrl, apiKey)]. *)
Definition new (baseUrl apiKey : string) : Client :=
  {| baseUrl := if Js.endsWith baseUrl "/" then Js.sliceDropLast baseUrl else baseUrl;
     apiKey := apiKey |}.

(** The members of [RequestInit] the client uses; no headers is [[]]. *)
Record RequestInit := {
  method : option string;
  body : option Json;           (* the value handed to JSON.stringify *)
  headers : list (string * string)
}.

Definition noOptions : RequestInit :=
  {| method := None; body := None; headers := [] |}.

(** The two arguments of [fetch]. *)
Record Call := {
  url : string;
  init : RequestInit
}.

Record FetchResponse := {
  ok : bool;
  status : Z;
  statusText : string;
  json : Json + string          (* response.json(): the value, or what it throws *)
}.

(** [fetch]: a response, or the error of a failed exchange. *)
Definition Fetch : Type := Call → FetchResponse + string.

(** What [makeRequest] hands to [fetch]. *)
Definition prepare (c : Client) (endpoint : string) (options : RequestInit) : Call :=
  {| url := baseUrl c ++ endpoint;
     init := {| method := method options;
                body := body options;
                headers :=
                  Js.spread [ ("Authorization", "Bearer " ++ apiKey c);
                              ("Content-Type", "application/json") ]
                            (headers options) |} |}.

Definition makeRequest (fetch : Fetch) (c : Client) (endpoint : string)
    (options : RequestInit) : Json + string :=
  match fetch (prepare c endpoint options) with
  | inr thrown => inr thrown
  | inl response =>
      if negb (ok response)
      then inr ("HTTP " ++ pretty (status response) ++ ": " ++ statusText response)
      else json response
  end.

Definition withMethod (m : string) (payload : option Json) : RequestInit :=
  {| method := Some m; body := payload; headers := [] |}.

(** The members of an object literal that are not [undefined]. *)
Definition defined (members : list (string * option Json)) : list (string * Json) :=
  omap (λ member, pair member.1 <$> member.2) members.

Record CreateAgentParams := {
  project_id : option string;
  name : string;
  framework : string;
  config : option Json
}.

Definition listAgents (fetch : Fetch) (c : Client) : Json + string :=
  makeRequest fetch c "/agents" noOptions.

Definition createAgent (fetch : Fetch) (c : Client) (params : CreateAgentParams)
    : Json + string :=
  makeRequest fetch c "/agents"
    (withMethod "POST"
       (Some (JObject (defined [ ("project_id", JString <$> project_id params);
                                 ("name", Some (JString (name params)));
                                 ("framework", Some (JString (framework params)));
                                 ("config", config params) ])))).

Definition startAgent (fetch : Fetch) (c : Client) (agentId : string) : Json + string :=
  makeRequest fetch c ("/agents/" ++ agentId ++ "/start") (withMethod "POST" None).

Definition stopAgent (fetch : Fetch) (c : Client) (agentId : string) : Json + string :=
  makeRequest fetch c ("/agents/" ++ agentId ++ "/stop") (withMethod "POST" None).

Definition editAgentConfig (fetch : Fetch) (c : Client) (agentId : string) (config : Json)
    : Json + string :=
  makeRequest fetch c ("/agents/" ++ agentId ++ "/config")
    (withMethod "PATCH" (Some (JObject [("config", config)]))).

Definition removeAgent (fetch : Fetch) (c : Client) (agentId : string) : Json + string :=
  makeRequest fetch c ("/agents/" ++ agentId) (withMethod "DELETE" None).

Definition sendMessage (fetch : Fetch) (c : Client) (agentId content : string)
    : Json + string :=
  makeRequest fetch c ("/agents/" ++ agentId ++ "/messages")
    (withMethod "POST" (Some (JObject [("content", JString content)]))).

Definition sendTerminal (fetch : Fetch) (c : Client) (agentId command : string)
    : Json + string :=
  makeRequest fetch c ("/agents/" ++ agentId ++ "/terminal")
    (withMethod "POST" (Some (JObject [("command", JString command)]))).

Definition agentStatus (fetch : Fetch) (c : Client) (agentId : string) : Json + string :=
  makeRequest fetch c ("/agents/" ++ agentId ++ "/status") noOptions.

Definition accountRegister (fetch : Fetch) (c : Client) (email : string) : Json + string :=
  makeRequest fetch c "/account/register"
    (withMethod "POST" (Some (JObject [("email", JString email)]))).

Definition payUpgrade (fetch : Fetch) (c : Client) (tier : string) : Json + string :=
  makeRequest fetch c "/account/upgrade"
    (withMethod "POST" (Some (JObject [("tier", JString tier)]))).

End Api.

(** ** HTTPTransport *)
Module Http.

(** [JSON.parse(body)]: the message, or the [SyntaxError] it throws. *)
Inductive Parse : Type :=
| Parsed (message : Mcp.Message)
| SyntaxError (message : string).

Record Request := {
  verb : string;                     (* req.method *)
  pathname : string;                 (* url.pathname *)
  sessionIdFromQuery : option string;   (* url.searchParams.get('sessionId') *)
  sessionIdFromHeader : option string;  (* req.headers['mcp-session-id'] *)
  authorization : option string;     (* req.headers.authorization *)
  json : Parse                       (* JSON.parse of the request body *)
}.

Inductive Body : Type :=
| NoBody                             (* res.end() *)
| ErrorBody (error : string)         (* JSON.stringify({ error }) *)
| JsonBody (response : Rpc.Response). (* JSON.stringify(response) *)

Record Response := {
  status : Z;
  contentType : option string;
  mcpSessionId : option string;      (* the mcp-session-id response header *)
  body : Body
}.

(** [res.writeHead(status, { 'Content-Type': 'application/json' });
    res.end(JSON.stringify({ error }))]. *)
Definition reject (status : Z) (error : string) : Response :=
  {| status := status; contentType := Some "application/json";
     mcpSessionId := None; body := ErrorBody error |}.

(** [res.writeHead(200); res.end()]. *)
Definition acknowledge : Response :=
  {| status := 200; contentType := None; mcpSessionId := None; body := NoBody |}.

(** The two [setHeader] calls, [writeHead(200)] and
    [res.end(JSON.stringify(response))]. *)
Definition reply (sessionId : string) (response : Rpc.Response) : Response :=
  {| status := 200; contentType := Some "application/json";
     mcpSessionId := Some sessionId; body := JsonBody response |}.

(** What [setServerInstance] stored: [None] when the instance is missing
    or has no [receiveMessage] function; otherwise that function, which
    returns a response or throws an error with the given message. *)
Definition ServerInstance : Type := option (Mcp.Message -> Rpc.Response + string).

Definition scopeMap : list (string * string) :=
  [ ("tools/list_agents", "read");
    ("tools/create_agent", "write");
    ("tools/start_agent", "execute");
    ("tools/stop_agent", "execute");
    ("tools/edit_agent_config", "write");
    ("tools/remove_agent", "write");
    ("tools/send_message", "write");
    ("tools/send_terminal", "terminal");
    ("tools/agent_status", "read");
    ("tools/account_register", "read");
    ("tools/pay_upgrade", "read");
    ("list_agents", "read");
    ("create_agent", "write");
    ("start_agent", "execute");
    ("stop_agent", "execute");
    ("edit_agent_config", "write");
    ("remove_agent", "write");
    ("send_message", "write");
    ("send_terminal", "terminal");
    ("agent_status", "read");
    ("account_register", "read");
    ("pay_upgrade", "read") ].

(** [scopeMap[method] || null]. *)
Definition getRequiredScope (method : string) : option Js.value :=
  match Js.get scopeMap method with
  | Some v => if Js.truthy v then Some v else None
  | None => None
  end.

(** Lines 56-66: the identifier the handler goes on with. *)
Definition extractSessionId (req : Request) : option string :=
  if Js.truthyStr (sessionIdFromQuery req) && Js.truthyStr (sessionIdFromHeader req) then
    match sessionIdFromQuery req, sessionIdFromHeader req with
    | Some q, Some h => if String.eqb q h then Some q else None
    | _, _ => None
    end
  else None.

(** Line 147: the condition under which the handler answers 403. *)
Definition scopeDenied (session : Auth.SessionData) (requiredScope : option Js.value) : bool :=
  match requiredScope with
  | Some scope => Js.truthy scope && negb (Auth.hasScope session scope)
  | None => false
  end.

(** Lines 153-180: forwarding of a message that passed the scope check.
    [inr] is an exception, caught by the enclosing [try]. *)
Definition dispatch (serverInstance : ServerInstance) (sessionId : string)
    (message : Mcp.Message) : Response + string :=
  match serverInstance with
  | Some receiveMessage =>
      match receiveMessage message with
      | inl response => inl (reply sessionId response)
      | inr thrown => inr thrown
      end
  | None =>
      if Mcp.truthyId (Mcp.id message) then
        inl (reply sessionId
               {| Rpc.jsonrpc := Some "2.0";
                  Rpc.id := Mcp.id message;
                  Rpc.result :=
                    Some (Rpc.Processed true ("Processed " ++ Mcp.method message));
                  Rpc.error := None |})
      else inl acknowledge
  end.

(** The [catch] arm: [error.message || 'Internal server error']. *)
Definition internalError (thrown : string) : Response :=
  reject 500 (if String.eqb thrown "" then "Internal server error" else thrown).

(** Lines 132-185: the handler once the session has been validated (the
    Active state of the handshake), on the outcome of parsing the body. *)
Definition active (serverInstance : ServerInstance) (session : Auth.SessionData)
    (sessionId : string) (parsed : Parse) : Response :=
  match parsed with
  | SyntaxError thrown => internalError thrown
  | Parsed message =>
      if String.eqb (Mcp.method message) "notifications/initialized" then acknowledge
      else
        let requiredScope := getRequiredScope (Mcp.method message) in
        if scopeDenied session requiredScope then
          reject 403 ("Insufficient permissions. Required scope: "
                      ++ match requiredScope with
                         | Some scope => Js.toString scope
                         | None => "null"
                         end)
        else
          match dispatch serverInstance sessionId message with
          | inl response => response
          | inr thrown => internalError thrown
          end
  end.

(** Lines 86-122: no session identifier to go on with.  The body is
    parsed outside any [try]: a [SyntaxError] rejects the handler's
    promise and no response is written ([None]). *)
Definition handshake `{Crypto} (env : Env) (am : Auth.AuthManager) (parsed : Parse)
    : Auth.AuthManager * option Response :=
  match parsed with
  | SyntaxError _ => (am, None)
  | Parsed message =>
      if String.eqb (Mcp.method message) "initialize" then
        let '(am', session) := Auth.createSession am env "demo-user" ["read"; "write"] in
        (am', Some (reply (Auth.id session)
                      {| Rpc.jsonrpc := Some "2.0";
                         Rpc.id := Mcp.id message;
                         Rpc.result :=
                           Some (Rpc.ServerInfo "2024-11-05" "blueprints-mcp-server" "1.0.0");
                         Rpc.error := None |}))
      else (am, Some (reject 401 "Session required for this request"))
  end.

(** Lines 49-186: the handler on a request whose URL has been parsed;
    line 47 is added by [Wire.handleRequest]. *)
Definition handleRequest `{Crypto} (serverInstance : ServerInstance) (env : Env)
    (am : Auth.AuthManager) (req : Request) : Auth.AuthManager * option Response :=
  if negb (String.eqb (verb req) "POST") || negb (String.eqb (pathname req) "/mcp/messages")
  then (am, Some (reject 404 "Not found"))
  else
    let sessionId := extractSessionId req in
    match authorization req with
    | None => (am, Some (reject 401 "Missing or invalid authorization header"))
    | Some authHeader =>
        if String.eqb authHeader "" || negb (String.prefix "Bearer " authHeader)
        then (am, Some (reject 401 "Missing or invalid authorization header"))
        else
          let token := Js.substringFrom 7 authHeader in
          if negb (Auth.validateApiKey token)
          then (am, Some (reject 401 "Invalid API key format"))
          else
            match sessionId with
            | None => handshake env am (json req)
            | Some sessionId =>
                if String.eqb sessionId "" then handshake env am (json req)
                else
                  match Auth.validateSession am (clock env) sessionId with
                  | (am', None) => (am', Some (reject 401 "Invalid or expired session"))
                  | (am', Some session) =>
                      (am', Some (active serverInstance session sessionId (json req)))
                  end
            end
    end.

(** The server created by [createServer(this.handleRequest.bind(this))]:
    one call of the handler per request, all on the same [AuthManager].
    A call reads and writes the store in a single step (one
    [createSession] or one [validateSession], with the clock read there),
    so a run is the sequence of these steps in the order they happen. *)
Fixpoint serve `{Crypto} (serverInstance : ServerInstance) (am : Auth.AuthManager)
    (requests : list (Env * Request)) : Auth.AuthManager * list (option Response) :=
  match requests with
  | [] => (am, [])
  | (env, req) :: rest =>
      let '(am', response) := handleRequest serverInstance env am req in
      let '(am'', responses) := serve serverInstance am' rest in
      (am'', response :: responses)
  end.

End Http.

(** ** HTTPTransport.handleRequest from its first line *)
Module Wire.

(** What the handler reads of [new URL(...)]. *)
Record URL := {
  pathname : string;
  sessionId : option string          (* searchParams.get('sessionId') *)
}.

(** [new URL(href)]: the parsed URL, or [None] when it throws a
    [TypeError]. *)
Definition NewURL : Type := string → option URL.

(** What the handler reads of the incoming message. *)
Record IncomingMessage := {
  method : string;                   (* req.method *)
  url : string;                      (* req.url *)
  host : option string;              (* req.headers.host *)
  mcpSessionId : option string;      (* req.headers['mcp-session-id'] *)
  authorization : option string;     (* req.headers.authorization *)
  body : Http.Parse                  (* JSON.parse of the request body *)
}.

(** The template string of line 47; a missing header reads [undefined]. *)
Definition href (req : IncomingMessage) : string :=
  "http://" ++ match host req with
               | Some h => h
               | None => "undefined"
               end ++ url req.

(** Line 47, then lines 49-186.  The URL is built outside any [try]: when
    it does not parse the handler's promise is rejected and no answer is
    written. *)
Definition handleRequest `{Crypto} (newURL : NewURL) (serverInstance : Http.ServerInstance)
    (env : Env) (am : Auth.AuthManager) (req : IncomingMessage)
    : Auth.AuthManager * option Http.Response :=
  match newURL (href req) with
  | None => (am, None)
  | Some parsed =>
      Http.handleRequest serverInstance env am
        {| Http.verb := method req;
           Http.pathname := pathname parsed;
           Http.sessionIdFromQuery := sessionId parsed;
           Http.sessionIdFromHeader := mcpSessionId req;
           Http.authorization := authorization req;
           Http.json := body req |}
  end.

End Wire.

(** ** Auxiliary definitions for the statements *)

(** The same request with neither session identifier supplied. *)
Definition withoutSessionIds (req : Http.Request) : Http.Request :=
  {| Http.verb := Http.verb req;
     Http.pathname := Http.pathname req;
     Http.sessionIdFromQuery := None;
     Http.sessionIdFromHeader := None;
     Http.authorization := Http.authorization req;
     Http.json := Http.json req |}.

(** The three ways [validateSession] can go. *)
Inductive validation (am : Auth.AuthManager) (now : Z) (sessionId : string)
    : Auth.AuthManager * option Auth.SessionData → Prop :=
| validation_absent :
    Auth.sessions am !! sessionId = None →
    validation am now sessionId (am, None)
| validation_expired session :
    Auth.sessions am !! sessionId = Some session →
    Auth.expiresAt session < now →
    validation am now sessionId (Auth.destroySession am sessionId, None)
| validation_live session :
    Auth.sessions am !! sessionId = Some session →
    now ≤ Auth.expiresAt session →
    validation am now sessionId
      (Auth.set_sessions am
         (<[sessionId := Auth.set_lastActivity session now]> (Auth.sessions am)),
       Some (Auth.set_lastActivity session now)).

(** What every record of a store filled by the handler looks like: kept
    under its own identifier, for the placeholder user with the two default
    scopes, expiring 30 minutes after its creation. *)
Definition handler_store (am : Auth.AuthManager) : Prop :=
  ∀ key session, Auth.sessions am !! key = Some session →
    Auth.id session = key
    ∧ Auth.userId session = "demo-user"
    ∧ Auth.scopes session = ["read"; "write"]
    ∧ Auth.expiresAt session = Auth.createdAt session + 30 * 60 * 1000.

(** A request at the message endpoint. *)
Definition at_endpoint (req : Http.Request) : Prop :=
  Http.verb req = "POST" ∧ Http.pathname req = "/mcp/messages".

(** A request whose [Authorization] header is [Bearer ] followed by a key
    that passes the format check. *)
Definition bearer_accepted (req : Http.Request) : Prop :=
  ∃ authHeader, Http.authorization req = Some authHeader
                ∧ String.prefix "Bearer " authHeader = true
                ∧ Auth.validateApiKey (Js.substringFrom 7 authHeader) = true.

(** A request that starts a session: at the endpoint, with an accepted
    bearer key, without session identifier, its body an [initialize]
    message. *)
Definition starts_session (req : Http.Request) : Prop :=
  at_endpoint req ∧ bearer_accepted req
  ∧ Http.extractSessionId req = None
  ∧ ∃ message, Http.json req = Http.Parsed message ∧ Mcp.method message = "initialize".

(** The six ways through [handleRequest], in the order of its checks. *)
Inductive handled `{Crypto} (serverInstance : Http.ServerInstance) (env : Env)
    (am : Auth.AuthManager) (req : Http.Request)
    : Auth.AuthManager * option Http.Response → Prop :=
| handled_not_found :
    Http.verb req ≠ "POST" ∨ Http.pathname req ≠ "/mcp/messages" →
    handled serverInstance env am req (am, Some (Http.reject 404 "Not found"))
| handled_no_bearer :
    at_endpoint req →
    (Http.authorization req = None
     ∨ ∃ authHeader, Http.authorization req = Some authHeader
                     ∧ String.prefix "Bearer " authHeader = false) →
    handled serverInstance env am req
      (am, Some (Http.reject 401 "Missing or invalid authorization header"))
| handled_bad_key authHeader :
    at_endpoint req →
    Http.authorization req = Some authHeader →
    String.prefix "Bearer " authHeader = true →
    Auth.validateApiKey (Js.substringFrom 7 authHeader) = false →
    handled serverInstance env am req (am, Some (Http.reject 401 "Invalid API key format"))
| handled_handshake :
    at_endpoint req → bearer_accepted req →
    Http.extractSessionId req = None →
    handled serverInstance env am req (Http.handshake env am (Http.json req))
| handled_invalid sessionId am' :
    at_endpoint req → bearer_accepted req →
    Http.extractSessionId req = Some sessionId →
    Auth.validateSession am (clock env) sessionId = (am', None) →
    handled serverInstance env am req
      (am', Some (Http.reject 401 "Invalid or expired session"))
| handled_active sessionId am' session :
    at_endpoint req → bearer_accepted req →
    Http.extractSessionId req = Some sessionId →
    Auth.validateSession am (clock env) sessionId = (am', Some session) →
    handled serverInstance env am req
      (am', Some (Http.active serverInstance session sessionId (Http.json req))).

(** Concrete data on which the statements are exercised. *)
Module Sample.

(** A stand-in keyed hash returning one fixed digest. *)
Definition crypto : Crypto :=
  λ _ _, "9f86d081884c7d659a2feaa0c55ad015a3bf4f1b2b0b822cd15d6c15b0f00a08".

Definition sid : string := "9f86d081884c7d659a2feaa0c55ad015".

Definition env : Env :=
  {| clock := 1700000000000;
     entropy := {| timestamp := "1700000000000";
                   random1 := "k3j9x0a1b2c"; random2 := "z8y7w6v5u4t" |} |}.

(** A later reading of the clock, ten minutes on. *)
Definition later : Env :=
  {| clock := 1700000600000;
     entropy := {| timestamp := "1700000600001";
                   random1 := "q1w2e3r4t5y"; random2 := "a9s8d7f6g5h" |} |}.

Definition token : string := "bp_sk_test_key".

(** A message-endpoint request carrying [token]. *)
Definition request (query header : option string) (id : option Mcp.Id) (method : string)
    : Http.Request :=
  {| Http.verb := "POST";
     Http.pathname := "/mcp/messages";
     Http.sessionIdFromQuery := query;
     Http.sessionIdFromHeader := header;
     Http.authorization := Some ("Bearer " ++ token);
     Http.json := Http.Parsed {| Mcp.id := id; Mcp.method := method |} |}.

(** The store after one handshake at [env]: [sid] is live with the default
    scopes [read] and [write]. *)
Definition manager : Auth.AuthManager :=
  (@Http.handleRequest crypto None env (Auth.new "default-secret-change-in-production")
     (request None None (Some (Mcp.IdNumber 1)) "initialize")).1.

Definition session : Auth.SessionData :=
  {| Auth.id := sid; Auth.userId := "demo-user";
     Auth.createdAt := 1700000000000; Auth.lastActivity := 1700000000000;
     Auth.scopes := ["read"; "write"]; Auth.expiresAt := 1700001800000 |}.

End Sample.

(** * Properties *)

(** ** Arithmetic and string facts used below *)

Lemma gtb_true (a b : Z) : (a >? b) = true ↔ b < a.
Proof. rewrite Z.gtb_ltb. apply Z.ltb_lt. Qed.

Lemma gtb_false (a b : Z) : (a >? b) = false ↔ a ≤ b.
Proof. rewrite Z.gtb_ltb. apply Z.ltb_ge. Qed.

Lemma existsb_eqb_In (s : string) (l : list string) :
  existsb (String.eqb s) l = true ↔ In s l.
Proof.
  rewrite existsb_exists. split.
  - intros (x & Hin & Heq). apply String.eqb_eq in Heq. by subst.
  - intros Hin. exists s. split; [done | apply String.eqb_refl].
Qed.

Lemma substring_all (s : string) : String.substring 0 (String.length s) s = s.
Proof. induction s as [|c s IH]; simpl; [done | by rewrite IH]. Qed.

Lemma substringFrom_Bearer (token : string) :
  Js.substringFrom 7 ("Bearer " ++ token) = token.
Proof.
  unfold Js.substringFrom. simpl. rewrite Nat.sub_0_r. apply substring_all.
Qed.

Lemma prefix_Bearer (token : string) :
  String.prefix "Bearer " ("Bearer " ++ token) = true.
Proof. simpl. by destruct token. Qed.

(** ** The session store *)
Section SessionStore.
Context {crypto : Crypto}.

Lemma validateSession_absent am now sessionId :
  Auth.sessions am !! sessionId = None →
  Auth.validateSession am now sessionId = (am, None).
Proof. intros Hget. unfold Auth.validateSession. by rewrite Hget. Qed.

Lemma validateSession_expired am now sessionId session :
  Auth.sessions am !! sessionId = Some session →
  Auth.expiresAt session < now →
  Auth.validateSession am now sessionId = (Auth.destroySession am sessionId, None).
Proof.
  intros Hget Hexp. unfold Auth.validateSession. rewrite Hget.
  apply gtb_true in Hexp. by rewrite Hexp.
Qed.

Lemma validateSession_live am now sessionId session :
  Auth.sessions am !! sessionId = Some session →
  now ≤ Auth.expiresAt session →
  Auth.validateSession am now sessionId =
    (Auth.set_sessions am
       (<[sessionId := Auth.set_lastActivity session now]> (Auth.sessions am)),
     Some (Auth.set_lastActivity session now)).
Proof.
  intros Hget Hlive. unfold Auth.validateSession. rewrite Hget.
  apply gtb_false in Hlive. by rewrite Hlive.
Qed.

Lemma createSession_stored am env userId scopes :
  Auth.sessions (Auth.createSession am env userId scopes).1
    !! Auth.id (Auth.createSession am env userId scopes).2
  = Some (Auth.createSession am env userId scopes).2.
Proof. simpl. apply lookup_insert_eq. Qed.

(** C3. A record made by [createSession] expires exactly 30 minutes after
    its creation; creation always yields a record, stored under its own
    identifier and valid at once; and [validateSession] accepts it exactly
    at the times up to and including [expiresAt]: it is accepted at every
    instant up to [createdAt + 30 min], and refused and removed from the
    store at every later instant. *)
Theorem createSession_lifetime am env userId scopes :
  let am' := (Auth.createSession am env userId scopes).1 in
  let session := (Auth.createSession am env userId scopes).2 in
  Auth.createdAt session = clock env
  ∧ Auth.expiresAt session = Auth.createdAt session + 30 * 60 * 1000
  ∧ Auth.sessions am' !! Auth.id session = Some session
  ∧ (Auth.validateSession am' (clock env) (Auth.id session)).2 = Some session
  ∧ (∀ now, is_Some (Auth.validateSession am' now (Auth.id session)).2
            ↔ now ≤ Auth.expiresAt session)
  ∧ (∀ now, now ≤ Auth.createdAt session + 30 * 60 * 1000 →
            (Auth.validateSession am' now (Auth.id session)).2
            = Some (Auth.set_lastActivity session now))
  ∧ (∀ now, Auth.createdAt session + 30 * 60 * 1000 < now →
            (Auth.validateSession am' now (Auth.id session)).2 = None
            ∧ Auth.sessions (Auth.validateSession am' now (Auth.id session)).1
                !! Auth.id session = None).
Proof.
  intros am' session.
  pose proof (createSession_stored am env userId scopes) as Hstored.
  fold am' session in Hstored.
  assert (Hexp : Auth.expiresAt session = clock env + 30 * 60 * 1000) by done.
  assert (Hcreated : Auth.createdAt session = clock env) by done.
  split_and!; try done.
  - rewrite (validateSession_live _ _ _ _ Hstored); [done | lia].
  - intros now. destruct (Z.le_gt_cases now (Auth.expiresAt session)) as [Hle|Hgt].
    + rewrite (validateSession_live _ _ _ _ Hstored Hle). simpl. split; eauto.
    + rewrite (validateSession_expired _ _ _ _ Hstored Hgt). simpl.
      split; [intros [? [=]] | lia].
  - intros now Hle.
    rewrite (validateSession_live _ _ _ _ Hstored); [done | lia].
  - intros now Hgt.
    rewrite (validateSession_expired _ _ _ _ Hstored); [| lia].
    simpl. split; [done | apply lookup_delete_eq].
Qed.

End SessionStore.

(** ** Validation of a stored session *)
Section Validation.
Implicit Types (am : Auth.AuthManager) (now : Z) (sessionId : string).

Lemma validateSession_cases am now sessionId :
  validation am now sessionId (Auth.validateSession am now sessionId).
Proof.
  destruct (Auth.sessions am !! sessionId) as [session|] eqn:Hget.
  - destruct (Z.le_gt_cases now (Auth.expiresAt session)) as [Hle|Hgt].
    + rewrite (validateSession_live _ _ _ _ Hget Hle). by eapply validation_live.
    + rewrite (validateSession_expired _ _ _ _ Hget Hgt). by eapply validation_expired.
  - rewrite (validateSession_absent _ _ _ Hget). by apply validation_absent.
Qed.

(** C4. [validateSession] answers not-found exactly when the identifier
    is absent or its record has expired; an expired record is deleted
    from the store by that call (and nothing else changes); a record that
    is returned is never expired, is the stored record with its last
    activity set to now, and is what the store holds afterwards. *)
Theorem validateSession_spec am now sessionId :
  let r := Auth.validateSession am now sessionId in
  (r.2 = None ↔
     Auth.sessions am !! sessionId = None
     ∨ ∃ session, Auth.sessions am !! sessionId = Some session
                  ∧ now > Auth.expiresAt session)
  ∧ (∀ session, Auth.sessions am !! sessionId = Some session →
                now > Auth.expiresAt session →
                r.2 = None
                ∧ Auth.sessions r.1 = delete sessionId (Auth.sessions am)
                ∧ Auth.sessions r.1 !! sessionId = None)
  ∧ (∀ session', r.2 = Some session' →
       now ≤ Auth.expiresAt session'
       ∧ Auth.lastActivity session' = now
       ∧ Auth.sessions r.1 !! sessionId = Some session'
       ∧ ∃ session, Auth.sessions am !! sessionId = Some session
                    ∧ session' = Auth.set_lastActivity session now).
Proof.
  intros r. subst r.
  destruct (validateSession_cases am now sessionId) as [Hget|session Hget Hexp|session Hget Hlive];
    simpl; split_and!.
  - split; [by left | done].
  - intros session. by rewrite Hget.
  - by intros session' [=].
  - split; [|done]. intros _. right. exists session. split; [done | lia].
  - intros session0 Hget0 _. split_and!; [done | done | apply lookup_delete_eq].
  - by intros session' [=].
  - split; [done |]. intros [Hnone | (session0 & Hget0 & Hexp)].
    + by rewrite Hget in Hnone.
    + rewrite Hget in Hget0. injection Hget0 as <-. lia.
  - intros session0 Hget0 Hexp. rewrite Hget in Hget0. injection Hget0 as <-. lia.
  - intros session' [= <-]. simpl. split_and!; [done | done | apply lookup_insert_eq |].
    by exists session.
Qed.

(** C10. Validating a live, unexpired session changes nothing but that
    record's last-activity time: its identifier, user, creation time,
    scopes and expiry are as before (so activity never extends the
    expiry), every other record of the store is as before, and so is the
    secret. *)
Theorem validateSession_frame am now sessionId session :
  Auth.sessions am !! sessionId = Some session →
  now ≤ Auth.expiresAt session →
  ∃ am' session',
    Auth.validateSession am now sessionId = (am', Some session')
    ∧ Auth.sessions am' !! sessionId = Some session'
    ∧ Auth.id session' = Auth.id session
    ∧ Auth.userId session' = Auth.userId session
    ∧ Auth.createdAt session' = Auth.createdAt session
    ∧ Auth.scopes session' = Auth.scopes session
    ∧ Auth.expiresAt session' = Auth.expiresAt session
    ∧ Auth.lastActivity session' = now
    ∧ (∀ other, other ≠ sessionId →
                Auth.sessions am' !! other = Auth.sessions am !! other)
    ∧ dom (Auth.sessions am') = dom (Auth.sessions am)
    ∧ Auth.secret am' = Auth.secret am.
Proof.
  intros Hget Hlive. eexists _, _.
  split; [by apply validateSession_live |].
  simpl. split_and!; try done.
  - apply lookup_insert_eq.
  - intros other Hne. by apply lookup_insert_ne.
  - apply dom_insert_lookup_L. by exists session.
Qed.

End Validation.

(** ** The scope policy *)
Section ScopePolicy.
Implicit Types (session : Auth.SessionData) (method : string) (scope : Js.value).

Lemma hasScope_spec session scope :
  Auth.hasScope session scope = true ↔
    In "admin" (Auth.scopes session) ∨ Js.includes (Auth.scopes session) scope = true.
Proof.
  unfold Auth.hasScope.
  destruct (Js.includes (Auth.scopes session) (Js.VString "admin")) eqn:Hadmin.
  - split; [|done]. intros _. left. unfold Js.includes in Hadmin.
    by apply existsb_eqb_In.
  - split; [by right |]. intros [Hin | Hinc]; [|done].
    apply existsb_eqb_In in Hin. unfold Js.includes in Hadmin. congruence.
Qed.

Lemma includes_string session scope :
  Js.includes (Auth.scopes session) scope = true ↔
    ∃ name, scope = Js.VString name ∧ In name (Auth.scopes session).
Proof.
  destruct scope as [name| |]; simpl.
  - rewrite existsb_eqb_In. split; [eauto |]. by intros (? & [= <-] & ?).
  - split; [done | by intros (? & [=] & _)].
  - split; [done | by intros (? & [=] & _)].
Qed.

Lemma getRequiredScope_truthy method scope :
  Http.getRequiredScope method = Some scope → Js.truthy scope = true.
Proof.
  unfold Http.getRequiredScope. destruct (Js.get Http.scopeMap method) as [v|]; [|done].
  destruct (Js.truthy v) eqn:Htruthy; [|done]. by intros [= <-].
Qed.

Lemma scopeDenied_false session method :
  Http.scopeDenied session (Http.getRequiredScope method) = false ↔
    In "admin" (Auth.scopes session)
    ∨ (∃ name, Http.getRequiredScope method = Some (Js.VString name)
               ∧ In name (Auth.scopes session))
    ∨ Http.getRequiredScope method = None.
Proof.
  destruct (Http.getRequiredScope method) as [scope|] eqn:Hreq; simpl.
  - rewrite (getRequiredScope_truthy _ _ Hreq). simpl.
    rewrite negb_false_iff, hasScope_spec, includes_string. split.
    + intros [Hadmin | (name & -> & Hin)]; [by left | right; left; eauto].
    + intros [Hadmin | [(name & [= ->] & Hin) | [=]]]; [by left | right; eauto].
  - split; [by (right; right) | done].
Qed.

Lemma dispatch_status serverInstance sessionId message response :
  Http.dispatch serverInstance sessionId message = inl response →
  Http.status response = 200.
Proof.
  unfold Http.dispatch. destruct serverInstance as [receiveMessage|].
  - destruct (receiveMessage message); by intros [= <-].
  - destruct (Mcp.truthyId (Mcp.id message)); by intros [= <-].
Qed.

(** The Active state answers 403 exactly when the scope condition of
    line 147 holds. *)
Lemma active_403 serverInstance session sessionId message :
  Http.status (Http.active serverInstance session sessionId (Http.Parsed message)) = 403 ↔
    Http.scopeDenied session (Http.getRequiredScope (Mcp.method message)) = true.
Proof.
  unfold Http.active.
  destruct (String.eqb (Mcp.method message) "notifications/initialized") eqn:Hack.
  - apply String.eqb_eq in Hack. rewrite Hack. by vm_compute.
  - destruct (Http.scopeDenied session _) eqn:Hdenied; [done |].
    destruct (Http.dispatch serverInstance sessionId message) as [response|thrown] eqn:Hd.
    + apply dispatch_status in Hd. rewrite Hd. done.
    + done.
Qed.

(** C5. A request is let through the scope check (not answered 403)
    exactly when the session's scopes contain [admin], or contain the scope
    that [getRequiredScope] returns for its method, or [getRequiredScope]
    returns none; and a session whose scopes contain [admin] has every
    scope, listed or not. *)
Theorem scope_authorization serverInstance session sessionId message :
  let granted :=
    In "admin" (Auth.scopes session)
    ∨ (∃ name, Http.getRequiredScope (Mcp.method message) = Some (Js.VString name)
               ∧ In name (Auth.scopes session))
    ∨ Http.getRequiredScope (Mcp.method message) = None in
  (Http.scopeDenied session (Http.getRequiredScope (Mcp.method message)) = false ↔ granted)
  ∧ (Http.status (Http.active serverInstance session sessionId (Http.Parsed message)) ≠ 403
     ↔ granted)
  ∧ (In "admin" (Auth.scopes session) → ∀ scope, Auth.hasScope session scope = true).
Proof.
  intros granted. subst granted. split_and!.
  - apply scopeDenied_false.
  - rewrite active_403, <- scopeDenied_false. by destruct (Http.scopeDenied _ _).
  - intros Hadmin scope. apply hasScope_spec. by left.
Qed.

(** C9. For each registered tool, the namespaced spelling [tools/op] and
    the bare spelling [op] require the same scope. *)
Theorem getRequiredScope_spellings op :
  In op Server.registeredTools →
  Http.getRequiredScope ("tools/" ++ op) = Http.getRequiredScope op.
Proof.
  unfold Server.registeredTools. simpl.
  intros Hin. repeat (destruct Hin as [<- | Hin]; [reflexivity |]). done.
Qed.

End ScopePolicy.

(** ** The request handler *)
Section Handshake.
Context {crypto : Crypto}.
Implicit Types (serverInstance : Http.ServerInstance) (env : Env)
  (am : Auth.AuthManager) (req : Http.Request) (token sessionId : string).

Lemma validateApiKey_false token :
  Auth.validateApiKey token = false ↔
    String.prefix "bp_sk_" token = false ∨ (String.length token ≤ 8)%nat.
Proof.
  unfold Auth.validateApiKey. destruct (String.prefix "bp_sk_" token); simpl.
  - rewrite Nat.ltb_ge. split; [by right | by intros [? | ?]].
  - split; [by left | done].
Qed.

(** The handler on a message-endpoint request whose bearer token passes
    the format check: everything after line 83. *)
Lemma handleRequest_authenticated serverInstance env am req token :
  Http.verb req = "POST" →
  Http.pathname req = "/mcp/messages" →
  Http.authorization req = Some ("Bearer " ++ token) →
  Auth.validateApiKey token = true →
  Http.handleRequest serverInstance env am req =
    match Http.extractSessionId req with
    | None => Http.handshake env am (Http.json req)
    | Some sessionId =>
        if String.eqb sessionId "" then Http.handshake env am (Http.json req)
        else
          match Auth.validateSession am (clock env) sessionId with
          | (am', None) => (am', Some (Http.reject 401 "Invalid or expired session"))
          | (am', Some session) =>
              (am', Some (Http.active serverInstance session sessionId (Http.json req)))
          end
    end.
Proof.
  intros Hverb Hpath Hauth Hkey. unfold Http.handleRequest.
  rewrite Hverb, Hpath, Hauth, substringFrom_Bearer, prefix_Bearer, Hkey. reflexivity.
Qed.

(** C8. A message-endpoint request whose bearer token has the wrong prefix
    or is too short is answered 401, whatever its method and whatever
    session identifiers it carries, and the session store is left exactly
    as it was. *)
Theorem malformed_token_rejected serverInstance env am req token :
  Http.verb req = "POST" →
  Http.pathname req = "/mcp/messages" →
  Http.authorization req = Some ("Bearer " ++ token) →
  String.prefix "bp_sk_" token = false ∨ (String.length token ≤ 8)%nat →
  Auth.validateApiKey token = false
  ∧ Http.handleRequest serverInstance env am req
    = (am, Some (Http.reject 401 "Invalid API key format"))
  ∧ Http.status (Http.reject 401 "Invalid API key format") = 401.
Proof.
  intros Hverb Hpath Hauth Hbad. apply validateApiKey_false in Hbad.
  split_and!; [done | | done].
  unfold Http.handleRequest.
  rewrite Hverb, Hpath, Hauth, substringFrom_Bearer, prefix_Bearer, Hbad. reflexivity.
Qed.


Lemma extractSessionId_one_channel req :
  Http.sessionIdFromQuery req = None ∨ Http.sessionIdFromHeader req = None →
  Http.extractSessionId req = None.
Proof.
  unfold Http.extractSessionId. intros [-> | ->]; simpl.
  - done.
  - rewrite andb_false_r. done.
Qed.

Lemma extractSessionId_match req sessionId :
  Http.sessionIdFromQuery req = Some sessionId →
  Http.sessionIdFromHeader req = Some sessionId →
  sessionId ≠ "" →
  Http.extractSessionId req = Some sessionId.
Proof.
  intros Hq Hh Hne. unfold Http.extractSessionId. rewrite Hq, Hh. simpl.
  apply String.eqb_neq in Hne. rewrite Hne. simpl. by rewrite String.eqb_refl.
Qed.

(** When no identifier is extracted, the identifiers the request carries
    play no part in the handler. *)
Lemma handleRequest_no_session serverInstance env am req :
  Http.extractSessionId req = None →
  Http.handleRequest serverInstance env am req
  = Http.handleRequest serverInstance env am (withoutSessionIds req).
Proof. intros Hnone. unfold Http.handleRequest. rewrite Hnone. reflexivity. Qed.


(** C1, as the handler has it.  On a message-endpoint request with a
    well-formed token: a session identifier carried, the same and
    non-empty, by the query parameter and by the header is validated by the
    store: not found or expired is answered 401, invalid or expired
    session; valid continues in the Active state with the touched record.
    An identifier carried by one channel only (the header alone or the
    query parameter alone) is not validated: the request is handled exactly
    as the same request without any identifier, on the no-session path, so
    [initialize] starts a new session and any other method is answered 401,
    session required, with the store as it was. *)
Theorem matching_ids_validated serverInstance env am req token :
  Http.verb req = "POST" →
  Http.pathname req = "/mcp/messages" →
  Http.authorization req = Some ("Bearer " ++ token) →
  Auth.validateApiKey token = true →
  (∀ sessionId,
     Http.sessionIdFromQuery req = Some sessionId →
     Http.sessionIdFromHeader req = Some sessionId →
     sessionId ≠ "" →
     (∀ am', Auth.validateSession am (clock env) sessionId = (am', None) →
             Http.handleRequest serverInstance env am req
             = (am', Some (Http.reject 401 "Invalid or expired session")))
     ∧ (∀ am' session,
          Auth.validateSession am (clock env) sessionId = (am', Some session) →
          Http.handleRequest serverInstance env am req
          = (am', Some (Http.active serverInstance session sessionId (Http.json req)))))
  ∧ (Http.sessionIdFromQuery req = None ∨ Http.sessionIdFromHeader req = None →
     Http.handleRequest serverInstance env am req
     = Http.handleRequest serverInstance env am (withoutSessionIds req)
     ∧ Http.handleRequest serverInstance env am req
       = Http.handshake env am (Http.json req)
     ∧ (∀ message, Http.json req = Http.Parsed message →
          Mcp.method message ≠ "initialize" →
          Http.handleRequest serverInstance env am req
          = (am, Some (Http.reject 401 "Session required for this request")))
     ∧ (∀ message, Http.json req = Http.Parsed message →
          Mcp.method message = "initialize" →
          Http.handleRequest serverInstance env am req
          = ((Auth.createSession am env "demo-user" ["read"; "write"]).1,
             Some (Http.reply
                     (Auth.id (Auth.createSession am env "demo-user" ["read"; "write"]).2)
                     {| Rpc.jsonrpc := Some "2.0";
                        Rpc.id := Mcp.id message;
                        Rpc.result :=
                          Some (Rpc.ServerInfo "2024-11-05" "blueprints-mcp-server" "1.0.0");
                        Rpc.error := None |})))).
Proof.
  intros Hverb Hpath Hauth Hkey. split.
  - intros sessionId Hq Hh Hne.
    rewrite (handleRequest_authenticated _ _ _ _ _ Hverb Hpath Hauth Hkey).
    rewrite (extractSessionId_match _ _ Hq Hh Hne).
    apply String.eqb_neq in Hne. rewrite Hne.
    split; [intros am' -> | intros am' session ->]; done.
  - intros Hone. pose proof (extractSessionId_one_channel _ Hone) as Hnone.
    assert (Hpath0 : Http.handleRequest serverInstance env am req
                     = Http.handshake env am (Http.json req)).
    { rewrite (handleRequest_authenticated _ _ _ _ _ Hverb Hpath Hauth Hkey).
      by rewrite Hnone. }
    split_and!.
    + by apply handleRequest_no_session.
    + exact Hpath0.
    + intros message Hjson Hother. rewrite Hpath0, Hjson. unfold Http.handshake.
      apply String.eqb_neq in Hother. by rewrite Hother.
    + intros message Hjson Hinit. rewrite Hpath0, Hjson. unfold Http.handshake.
      by rewrite Hinit.
Qed.

(** An identifier carried by the header alone, or by the query parameter
    alone, sends the request down the no-session path. *)
Lemma one_channel_handshake serverInstance env am req token :
  Http.verb req = "POST" →
  Http.pathname req = "/mcp/messages" →
  Http.authorization req = Some ("Bearer " ++ token) →
  Auth.validateApiKey token = true →
  Http.sessionIdFromQuery req = None ∨ Http.sessionIdFromHeader req = None →
  Http.handleRequest serverInstance env am req = Http.handshake env am (Http.json req).
Proof.
  intros Hverb Hpath Hauth Hkey Hone.
  rewrite (handleRequest_authenticated _ _ _ _ _ Hverb Hpath Hauth Hkey).
  by rewrite (extractSessionId_one_channel _ Hone).
Qed.

End Handshake.

(** C1, as stated, fails.  The store holds a live session; a request
    carries its identifier in the [mcp-session-id] header alone, with a
    well-formed token, ten minutes after the handshake.  The store would
    report the identifier valid, yet the handler never asks it: the request
    is answered 401, session required, and the record is not touched, where
    the Active state would have answered 200. *)
Lemma header_only_session_not_validated :
  let req := Sample.request None (Some Sample.sid) (Some (Mcp.IdNumber 2)) "list_agents" in
  Http.sessionIdFromHeader req = Some Sample.sid
  ∧ Auth.sessions Sample.manager !! Sample.sid = Some Sample.session
  ∧ (Auth.validateSession Sample.manager (clock Sample.later) Sample.sid).2
    = Some (Auth.set_lastActivity Sample.session (clock Sample.later))
  ∧ @Http.handleRequest Sample.crypto None Sample.later Sample.manager req
    = (Sample.manager, Some (Http.reject 401 "Session required for this request"))
  ∧ Http.status (Http.active None (Auth.set_lastActivity Sample.session (clock Sample.later))
                   Sample.sid (Http.json req)) = 200.
Proof.
  assert (Hstored : Auth.sessions Sample.manager !! Sample.sid = Some Sample.session)
    by apply lookup_insert_eq.
  intros req. split_and!.
  - reflexivity.
  - exact Hstored.
  - by rewrite (validateSession_live _ _ _ _ Hstored).
  - rewrite (one_channel_handshake (crypto := Sample.crypto)
               None Sample.later Sample.manager req Sample.token);
      [reflexivity | reflexivity | reflexivity | reflexivity | reflexivity | by left].
  - reflexivity.
Qed.

(** ** Response bodies *)
Section Envelope.
Context {crypto : Crypto}.





(** C7, as the handler has it.  A method that names neither an entry of
    the scope table nor a member inherited from [Object.prototype] requires
    no scope; in the Active state such a request is never answered 403 and
    the answer does not depend on the session: the acknowledgement
    notification is acknowledged, every other method is forwarded. *)
Theorem unmapped_method_open serverInstance session sessionId message :
  Js.own Http.scopeMap (Mcp.method message) = None →
  Js.Object_prototype (Mcp.method message) = None →
  Http.getRequiredScope (Mcp.method message) = None
  ∧ Http.status (Http.active serverInstance session sessionId (Http.Parsed message)) ≠ 403
  ∧ (∀ session',
       Http.active serverInstance session' sessionId (Http.Parsed message)
       = Http.active serverInstance session sessionId (Http.Parsed message))
  ∧ (Mcp.method message = "notifications/initialized" →
       Http.active serverInstance session sessionId (Http.Parsed message)
       = Http.acknowledge)
  ∧ (Mcp.method message ≠ "notifications/initialized" →
       Http.active serverInstance session sessionId (Http.Parsed message)
       = match Http.dispatch serverInstance sessionId message with
         | inl response => response
         | inr thrown => Http.internalError thrown
         end).
Proof.
  intros Hown Hproto.
  assert (Hreq : Http.getRequiredScope (Mcp.method message) = None).
  { unfold Http.getRequiredScope, Js.get. by rewrite Hown, Hproto. }
  split_and!.
  - exact Hreq.
  - rewrite active_403, Hreq. done.
  - intros session'. unfold Http.active. by rewrite Hreq.
  - intros Heq. unfold Http.active. by rewrite Heq.
  - intros Hne. apply String.eqb_neq in Hne. unfold Http.active. by rewrite Hne, Hreq.
Qed.

End Envelope.

(** ** The statements that fail, at concrete requests *)

Lemma manager_holds_session :
  Auth.sessions Sample.manager !! Sample.sid = Some Sample.session.
Proof. apply lookup_insert_eq. Qed.

(** The handler on a request of [Sample.request] that carries [Sample.sid]
    on both channels, ten minutes after the handshake. *)
Lemma sample_active serverInstance id method :
  (@Http.handleRequest Sample.crypto serverInstance Sample.later Sample.manager
     (Sample.request (Some Sample.sid) (Some Sample.sid) id method)).2
  = Some (Http.active serverInstance
            (Auth.set_lastActivity Sample.session (clock Sample.later)) Sample.sid
            (Http.Parsed {| Mcp.id := id; Mcp.method := method |})).
Proof.
  rewrite (handleRequest_authenticated (crypto := Sample.crypto) serverInstance
             Sample.later Sample.manager _ Sample.token);
    [| reflexivity | reflexivity | reflexivity | reflexivity].
  rewrite (extractSessionId_match _ Sample.sid); [| reflexivity | reflexivity | done].
  rewrite (validateSession_live _ _ _ _ manager_holds_session); [reflexivity | done].
Qed.


(** C7, as stated, fails.  [constructor] is not an entry of the scope
    table, yet [getRequiredScope] returns the function inherited under that
    name, and a live session with scopes [read] and [write] is answered
    403.  And [notifications/initialized], not an entry either, is
    acknowledged without being forwarded: the server instance would have
    answered with its own body. *)
Lemma inherited_name_requires_scope :
  let receive : Http.ServerInstance := Some (λ message, inl (Server.receiveMessage message)) in
  let acknowledgement :=
    {| Mcp.id := Some (Mcp.IdNumber 4); Mcp.method := "notifications/initialized" |} in
  Js.own Http.scopeMap "constructor" = None
  ∧ Http.getRequiredScope "constructor" = Some (Js.VFunction "Object")
  ∧ (@Http.handleRequest Sample.crypto None Sample.later Sample.manager
       (Sample.request (Some Sample.sid) (Some Sample.sid) (Some (Mcp.IdNumber 3))
          "constructor")).2
    = Some (Http.reject 403
              "Insufficient permissions. Required scope: function Object() { [native code] }")
  ∧ Js.own Http.scopeMap "notifications/initialized" = None
  ∧ Http.active receive Sample.session Sample.sid (Http.Parsed acknowledgement)
    = Http.acknowledge
  ∧ Http.dispatch receive Sample.sid acknowledgement
    = inl (Http.reply Sample.sid (Server.receiveMessage acknowledgement)).
Proof.
  intros receive acknowledgement. split_and!; [reflexivity | reflexivity | | reflexivity..].
  rewrite sample_active. reflexivity.
Qed.

(** ** The statements at concrete inputs *)

Lemma createSession_lifetime_witness :
  let created :=
    @Auth.createSession Sample.crypto (Auth.new "k") Sample.env "demo-user" ["read"; "write"] in
  1700000600000 ≤ Auth.createdAt created.2 + 30 * 60 * 1000
  ∧ (Auth.validateSession created.1 1700000600000 (Auth.id created.2)).2
    = Some (Auth.set_lastActivity created.2 1700000600000).
Proof.
  intros created.
  assert (Hle : 1700000600000 ≤ Auth.createdAt created.2 + 30 * 60 * 1000)
    by (vm_compute; discriminate).
  split; [exact Hle |].
  destruct (createSession_lifetime (crypto := Sample.crypto)
              (Auth.new "k") Sample.env "demo-user" ["read"; "write"])
    as (_ & _ & _ & _ & _ & Hlive & _).
  exact (Hlive 1700000600000 Hle).
Defined.

Lemma validateSession_spec_witness :
  Auth.sessions Sample.manager !! Sample.sid = Some Sample.session
  ∧ 1700001800001 > Auth.expiresAt Sample.session
  ∧ (Auth.validateSession Sample.manager 1700001800001 Sample.sid).2 = None
  ∧ Auth.sessions (Auth.validateSession Sample.manager 1700001800001 Sample.sid).1
      !! Sample.sid = None.
Proof.
  assert (Hget : Auth.sessions Sample.manager !! Sample.sid = Some Sample.session)
    by (vm_compute; reflexivity).
  assert (Hexp : 1700001800001 > Auth.expiresAt Sample.session) by reflexivity.
  destruct (validateSession_spec Sample.manager 1700001800001 Sample.sid)
    as (_ & Hexpired & _).
  destruct (Hexpired Sample.session Hget Hexp) as (Hnone & _ & Hgone).
  exact (conj Hget (conj Hexp (conj Hnone Hgone))).
Defined.

Lemma validateSession_frame_witness :
  Auth.sessions Sample.manager !! Sample.sid = Some Sample.session
  ∧ clock Sample.later ≤ Auth.expiresAt Sample.session
  ∧ ∃ am' session',
      Auth.validateSession Sample.manager (clock Sample.later) Sample.sid
      = (am', Some session')
      ∧ Auth.expiresAt session' = Auth.expiresAt Sample.session
      ∧ Auth.lastActivity session' = clock Sample.later.
Proof.
  assert (Hget : Auth.sessions Sample.manager !! Sample.sid = Some Sample.session)
    by (vm_compute; reflexivity).
  assert (Hlive : clock Sample.later ≤ Auth.expiresAt Sample.session)
    by (vm_compute; discriminate).
  split; [exact Hget |]. split; [exact Hlive |].
  destruct (validateSession_frame Sample.manager (clock Sample.later) Sample.sid
              Sample.session Hget Hlive)
    as (am' & session' & Hvalid & _ & _ & _ & _ & _ & Hexpiry & Hactivity & _).
  exists am', session'. exact (conj Hvalid (conj Hexpiry Hactivity)).
Defined.

Lemma scope_authorization_witness :
  In "admin" ["read"; "admin"]
  ∧ Auth.hasScope
      {| Auth.id := Sample.sid; Auth.userId := "demo-user";
         Auth.createdAt := 0; Auth.lastActivity := 0;
         Auth.scopes := ["read"; "admin"]; Auth.expiresAt := 1800000 |}
      (Js.VString "terminal") = true.
Proof.
  assert (Hadmin : In "admin" ["read"; "admin"]) by (simpl; tauto).
  split; [exact Hadmin |].
  destruct (scope_authorization None
              {| Auth.id := Sample.sid; Auth.userId := "demo-user";
                 Auth.createdAt := 0; Auth.lastActivity := 0;
                 Auth.scopes := ["read"; "admin"]; Auth.expiresAt := 1800000 |}
              Sample.sid
              {| Mcp.id := Some (Mcp.IdNumber 1); Mcp.method := "send_terminal" |})
    as (_ & _ & Hall).
  exact (Hall Hadmin (Js.VString "terminal")).
Defined.

Lemma getRequiredScope_spellings_witness :
  In "send_terminal" Server.registeredTools
  ∧ Http.getRequiredScope "tools/send_terminal" = Http.getRequiredScope "send_terminal".
Proof.
  assert (Hin : In "send_terminal" Server.registeredTools) by (simpl; tauto).
  split; [exact Hin |].
  exact (getRequiredScope_spellings "send_terminal" Hin).
Defined.

Lemma malformed_token_rejected_witness :
  let req :=
    {| Http.verb := "POST"; Http.pathname := "/mcp/messages";
       Http.sessionIdFromQuery := Some Sample.sid;
       Http.sessionIdFromHeader := Some Sample.sid;
       Http.authorization := Some "Bearer bp_sk_ab";
       Http.json := Http.Parsed {| Mcp.id := Some (Mcp.IdNumber 1);
                                   Mcp.method := "initialize" |} |} in
  (String.length "bp_sk_ab" ≤ 8)%nat
  ∧ @Http.handleRequest Sample.crypto None Sample.later Sample.manager req
    = (Sample.manager, Some (Http.reject 401 "Invalid API key format")).
Proof.
  intros req.
  assert (Hshort : (String.length "bp_sk_ab" ≤ 8)%nat) by (simpl; lia).
  split; [exact Hshort |].
  destruct (malformed_token_rejected (crypto := Sample.crypto) None Sample.later
              Sample.manager req "bp_sk_ab" eq_refl eq_refl eq_refl (or_intror Hshort))
    as (_ & Hrejected & _).
  exact Hrejected.
Defined.


Lemma matching_ids_validated_witness :
  let both :=
    Sample.request (Some Sample.sid) (Some Sample.sid) (Some (Mcp.IdNumber 6)) "list_agents" in
  let headerOnly :=
    Sample.request None (Some Sample.sid) (Some (Mcp.IdNumber 6)) "list_agents" in
  let touched := Auth.set_lastActivity Sample.session (clock Sample.later) in
  Auth.validateApiKey Sample.token = true
  ∧ Auth.sessions Sample.manager !! Sample.sid = Some Sample.session
  ∧ @Http.handleRequest Sample.crypto None Sample.later Sample.manager both
    = (Auth.set_sessions Sample.manager
         (<[Sample.sid := touched]> (Auth.sessions Sample.manager)),
       Some (Http.active None touched Sample.sid (Http.json both)))
  ∧ @Http.handleRequest Sample.crypto None Sample.later Sample.manager headerOnly
    = (Sample.manager, Some (Http.reject 401 "Session required for this request")).
Proof.
  intros both headerOnly touched.
  assert (Hne : Sample.sid ≠ "") by discriminate.
  assert (Hget : Auth.sessions Sample.manager !! Sample.sid = Some Sample.session)
    by (vm_compute; reflexivity).
  assert (Hlive : clock Sample.later ≤ Auth.expiresAt Sample.session)
    by (vm_compute; discriminate).
  destruct (matching_ids_validated (crypto := Sample.crypto) None Sample.later
              Sample.manager both Sample.token eq_refl eq_refl eq_refl eq_refl)
    as [Hboth _].
  destruct (Hboth Sample.sid eq_refl eq_refl Hne) as [_ Hvalid].
  destruct (matching_ids_validated (crypto := Sample.crypto) None Sample.later
              Sample.manager headerOnly Sample.token eq_refl eq_refl eq_refl eq_refl)
    as [_ Hone].
  destruct (Hone (or_introl eq_refl)) as (_ & _ & Hother & _).
  split; [reflexivity |]. split; [exact Hget |]. split.
  - apply Hvalid. exact (validateSession_live _ _ _ _ Hget Hlive).
  - apply (Hother {| Mcp.id := Some (Mcp.IdNumber 6); Mcp.method := "list_agents" |} eq_refl).
    discriminate.
Defined.


Lemma unmapped_method_open_witness :
  let message := {| Mcp.id := Some (Mcp.IdNumber 8); Mcp.method := "ping" |} in
  Js.own Http.scopeMap "ping" = None
  ∧ Js.Object_prototype "ping" = None
  ∧ Http.getRequiredScope "ping" = None
  ∧ Http.status (Http.active None Sample.session Sample.sid (Http.Parsed message)) ≠ 403.
Proof.
  intros message.
  destruct (unmapped_method_open None Sample.session Sample.sid message eq_refl eq_refl)
    as (Hnone & Hopen & _).
  exact (conj eq_refl (conj eq_refl (conj Hnone Hopen))).
Defined.

(** * Further properties of the session store *)
Section StoreOperations.
Context {crypto : Crypto}.
Implicit Types (am : Auth.AuthManager) (now : Z) (sessionId : string).

Lemma set_sessions_same am : Auth.set_sessions am (Auth.sessions am) = am.
Proof. by destruct am. Qed.

Lemma cleanup_lookup_Some am now key session :
  Auth.sessions (Auth.cleanupExpiredSessions am now) !! key = Some session ↔
    Auth.sessions am !! key = Some session ∧ now ≤ Auth.expiresAt session.
Proof.
  unfold Auth.cleanupExpiredSessions. simpl. rewrite map_lookup_filter_Some. simpl.
  split; intros [Hget Hlive]; (split; [done | lia]).
Qed.

Lemma cleanup_lookup_None am now key :
  Auth.sessions (Auth.cleanupExpiredSessions am now) !! key = None ↔
    Auth.sessions am !! key = None
    ∨ ∃ session, Auth.sessions am !! key = Some session ∧ Auth.expiresAt session < now.
Proof.
  unfold Auth.cleanupExpiredSessions. simpl. rewrite map_lookup_filter_None. simpl.
  split.
  - intros [Hnone | Hall]; [by left |].
    destruct (Auth.sessions am !! key) as [session|] eqn:Hget; [| by left].
    right. exists session. split; [done |]. specialize (Hall session eq_refl). lia.
  - intros [Hnone | (session & Hget & Hexp)]; [by left |].
    right. intros session' Hget'. rewrite Hget in Hget'. injection Hget' as <-. lia.
Qed.

(** X13. Destroying a session: the identifier is not found afterwards, at any
    time; no other record is touched; destroying an identifier the store
    does not hold changes nothing, so destroying twice is destroying
    once. *)
Theorem destroySession_spec am sessionId :
  (∀ now, Auth.validateSession (Auth.destroySession am sessionId) now sessionId
          = (Auth.destroySession am sessionId, None))
  ∧ (∀ other, other ≠ sessionId →
       Auth.sessions (Auth.destroySession am sessionId) !! other = Auth.sessions am !! other)
  ∧ (Auth.sessions am !! sessionId = None → Auth.destroySession am sessionId = am)
  ∧ Auth.destroySession (Auth.destroySession am sessionId) sessionId
    = Auth.destroySession am sessionId.
Proof.
  split_and!.
  - intros now. apply validateSession_absent. apply lookup_delete_eq.
  - intros other Hne. by apply lookup_delete_ne.
  - intros Hnone. unfold Auth.destroySession. rewrite (delete_id _ _ Hnone).
    apply set_sessions_same.
  - unfold Auth.destroySession. simpl. f_equal. apply delete_id, lookup_delete_eq.
Qed.

(** X14. The periodic sweep keeps exactly the records that have not expired,
    unchanged, and drops the others; the secret is kept; sweeping again at
    the same time removes nothing more. *)
Theorem cleanupExpiredSessions_spec am now :
  (∀ key session,
     Auth.sessions (Auth.cleanupExpiredSessions am now) !! key = Some session ↔
       Auth.sessions am !! key = Some session ∧ now ≤ Auth.expiresAt session)
  ∧ (∀ key session, Auth.sessions am !! key = Some session →
       now > Auth.expiresAt session →
       Auth.sessions (Auth.cleanupExpiredSessions am now) !! key = None)
  ∧ Auth.secret (Auth.cleanupExpiredSessions am now) = Auth.secret am
  ∧ (size (Auth.sessions (Auth.cleanupExpiredSessions am now))
     ≤ size (Auth.sessions am))%nat
  ∧ Auth.cleanupExpiredSessions (Auth.cleanupExpiredSessions am now) now
    = Auth.cleanupExpiredSessions am now.
Proof.
  split_and!.
  - intros key session. apply cleanup_lookup_Some.
  - intros key session Hget Hexp. apply cleanup_lookup_None. right.
    exists session. split; [done | lia].
  - done.
  - apply map_size_filter.
  - unfold Auth.cleanupExpiredSessions, Auth.set_sessions. simpl. f_equal.
    by apply map_filter_filter_l.
Qed.

(** X15. The sweep has no bearing on validation: once the clock has not gone
    back since the sweep, validating an identifier gives the same answer,
    and leaves the same record under that identifier, whether or not the
    store was swept. *)
Theorem cleanup_then_validate am swept now sessionId :
  swept ≤ now →
  (Auth.validateSession (Auth.cleanupExpiredSessions am swept) now sessionId).2
  = (Auth.validateSession am now sessionId).2
  ∧ Auth.sessions
      (Auth.validateSession (Auth.cleanupExpiredSessions am swept) now sessionId).1
      !! sessionId
    = Auth.sessions (Auth.validateSession am now sessionId).1 !! sessionId.
Proof.
  intros Hclock.
  destruct (Auth.sessions am !! sessionId) as [session|] eqn:Hget.
  - destruct (Z.le_gt_cases now (Auth.expiresAt session)) as [Hlive|Hexp].
    + assert (Hkept : Auth.sessions (Auth.cleanupExpiredSessions am swept) !! sessionId
                      = Some session) by (apply cleanup_lookup_Some; split; [done | lia]).
      rewrite (validateSession_live _ _ _ _ Hkept Hlive).
      rewrite (validateSession_live _ _ _ _ Hget Hlive). simpl.
      split; [done |]. by rewrite !lookup_insert_eq.
    + rewrite (validateSession_expired _ _ _ _ Hget Hexp). simpl.
      rewrite lookup_delete_eq.
      destruct (Auth.sessions (Auth.cleanupExpiredSessions am swept) !! sessionId)
        as [kept|] eqn:Hkept.
      * pose proof Hkept as Hsame. apply cleanup_lookup_Some in Hsame as [Hget' _].
        rewrite Hget in Hget'. injection Hget' as <-.
        rewrite (validateSession_expired _ _ _ _ Hkept Hexp). simpl.
        split; [done | apply lookup_delete_eq].
      * by rewrite (validateSession_absent _ _ _ Hkept).
  - assert (Hkept : Auth.sessions (Auth.cleanupExpiredSessions am swept) !! sessionId = None)
      by (apply cleanup_lookup_None; by left).
    rewrite (validateSession_absent _ _ _ Hkept), (validateSession_absent _ _ _ Hget).
    cbn [fst snd]. by rewrite Hkept, Hget.
Qed.

(** X16. A refused identifier stays refused: once [validateSession] has
    answered not-found for it, it answers not-found at every later call,
    whatever the clock then reads, and changes the store no more. *)
Theorem refused_stays_refused am now sessionId :
  (Auth.validateSession am now sessionId).2 = None →
  ∀ now', Auth.validateSession (Auth.validateSession am now sessionId).1 now' sessionId
          = ((Auth.validateSession am now sessionId).1, None).
Proof.
  intros Hrefused now'. apply validateSession_absent.
  destruct (validateSession_cases am now sessionId) as [Hget|session Hget Hexp|session Hget Hlive].
  - done.
  - apply lookup_delete_eq.
  - done.
Qed.

(** X17. Only the last touch counts: after a successful validation, a second
    validation leaves the store and answers exactly as if it had been the
    only one. *)
Theorem validateSession_twice am first second sessionId session :
  Auth.sessions am !! sessionId = Some session →
  first ≤ Auth.expiresAt session →
  Auth.validateSession (Auth.validateSession am first sessionId).1 second sessionId
  = Auth.validateSession am second sessionId.
Proof.
  intros Hget Hfirst. rewrite (validateSession_live _ _ _ _ Hget Hfirst). cbn [fst].
  set (touched := Auth.set_lastActivity session first).
  set (am1 := Auth.set_sessions am (<[sessionId := touched]> (Auth.sessions am))).
  assert (Hget1 : Auth.sessions am1 !! sessionId = Some touched) by apply lookup_insert_eq.
  destruct (Z.le_gt_cases second (Auth.expiresAt session)) as [Hlive|Hexp].
  - rewrite (validateSession_live _ _ _ _ Hget1 Hlive).
    rewrite (validateSession_live _ _ _ _ Hget Hlive).
    unfold am1, Auth.set_sessions. simpl. by rewrite insert_insert_eq.
  - rewrite (validateSession_expired _ _ _ _ Hget1 Hexp).
    rewrite (validateSession_expired _ _ _ _ Hget Hexp).
    unfold am1, Auth.destroySession, Auth.set_sessions. simpl. by rewrite delete_insert_eq.
Qed.

(** X18. Creating a session writes one key, the generated identifier: every
    other record and the secret are as before, the store grows by at most
    one record, and a record already kept under the generated identifier is
    replaced by the new one. *)
Theorem createSession_frame am env userId scopes :
  let created := Auth.createSession am env userId scopes in
  Auth.id created.2 = Auth.generateSecureSessionId am (entropy env)
  ∧ (∀ other, other ≠ Auth.id created.2 →
       Auth.sessions created.1 !! other = Auth.sessions am !! other)
  ∧ Auth.secret created.1 = Auth.secret am
  ∧ dom (Auth.sessions created.1) = {[Auth.id created.2]} ∪ dom (Auth.sessions am)
  ∧ (size (Auth.sessions created.1) ≤ S (size (Auth.sessions am)))%nat
  ∧ (∀ old, Auth.sessions am !! Auth.id created.2 = Some old →
       Auth.sessions created.1 !! Auth.id created.2 = Some created.2
       ∧ size (Auth.sessions created.1) = size (Auth.sessions am)).
Proof.
  intros created. subst created. simpl. split_and!.
  - done.
  - intros other Hne. by apply lookup_insert_ne.
  - done.
  - apply dom_insert_L.
  - rewrite map_size_insert. destruct (Auth.sessions am !! _); simpl; lia.
  - intros old Hold. split; [apply lookup_insert_eq |].
    rewrite map_size_insert. by rewrite Hold.
Qed.

Lemma substring_prefix_length (n : nat) (s : string) :
  String.length (String.substring 0 n s) = Nat.min n (String.length s)
  ∧ String.prefix (String.substring 0 n s) s = true.
Proof.
  revert n. induction s as [|c s IH]; intros [|n]; simpl; try done.
  destruct (IH n) as [Hlen Hpre]. rewrite Hlen, Hpre.
  by destruct (ascii_dec c c).
Qed.

(** X19. A session identifier is the first 32 characters of the keyed digest of
    the timestamp followed by the two random strings: a prefix of that
    digest, 32 characters long as soon as the digest has 32 (a hexadecimal
    SHA-256 digest has 64), and then not the empty string. *)
Theorem generateSecureSessionId_length am e :
  let digest := hmac_sha256_hex (Auth.secret am) (timestamp e ++ random1 e ++ random2 e) in
  String.length (Auth.generateSecureSessionId am e) = Nat.min 32 (String.length digest)
  ∧ String.prefix (Auth.generateSecureSessionId am e) digest = true
  ∧ ((32 ≤ String.length digest)%nat →
       String.length (Auth.generateSecureSessionId am e) = 32%nat
       ∧ Auth.generateSecureSessionId am e ≠ "").
Proof.
  intros digest. unfold Auth.generateSecureSessionId. fold digest.
  destruct (substring_prefix_length 32 digest) as [Hlen Hpre].
  split_and!; [done | done |].
  intros Hlong. rewrite (Nat.min_l _ _ Hlong) in Hlen. split; [done |].
  intros Hempty. rewrite Hempty in Hlen. discriminate Hlen.
Qed.

Lemma prefix_append (p s : string) :
  String.prefix p s = true ↔ ∃ rest, s = p ++ rest.
Proof.
  revert s. induction p as [|c p IH]; intros s; simpl.
  - split; [intros _; by exists s | by destruct s].
  - destruct s as [|d s]; [split; [done | by intros (rest & [=])] |].
    simpl. destruct (ascii_dec c d) as [<- | Hne].
    + rewrite IH. split; intros (rest & Heq); exists rest; [by rewrite Heq | by injection Heq].
    + split; [done |]. intros (rest & [= <- _]). done.
Qed.

Lemma length_append (a b : string) :
  String.length (a ++ b) = (String.length a + String.length b)%nat.
Proof. induction a as [|c a IH]; simpl; [done | by rewrite IH]. Qed.

(** X20. The API keys that pass the format check are exactly the strings
    [bp_sk_] followed by at least three characters. *)
Theorem validateApiKey_accepts apiKey :
  Auth.validateApiKey apiKey = true ↔
    ∃ rest, apiKey = "bp_sk_" ++ rest ∧ (3 ≤ String.length rest)%nat.
Proof.
  unfold Auth.validateApiKey.
  destruct (String.prefix "bp_sk_" apiKey) eqn:Hprefix; simpl.
  - apply prefix_append in Hprefix as (rest & ->).
    rewrite Nat.ltb_lt, length_append. simpl. split.
    + intros Hlen. exists rest. split; [done | lia].
    + intros (rest' & Heq & Hlen). simplify_eq/=. lia.
  - split; [done |]. intros (rest & -> & _).
    assert (String.prefix "bp_sk_" ("bp_sk_" ++ rest) = true) as Hyes
      by (apply prefix_append; by exists rest).
    congruence.
Qed.

(** X21. Scopes only add up: a session with no scope has none; the scopes a
    session has are [admin]'s all, or else exactly the listed strings; and
    granting more scopes never takes one away. *)
Theorem hasScope_monotone session session' :
  (∀ name, In name (Auth.scopes session) → In name (Auth.scopes session')) →
  (∀ scope, Auth.hasScope session scope = true → Auth.hasScope session' scope = true)
  ∧ (Auth.scopes session = [] → ∀ scope, Auth.hasScope session scope = false)
  ∧ (∀ name, Auth.hasScope session (Js.VString name) = true ↔
              In "admin" (Auth.scopes session) ∨ In name (Auth.scopes session))
  ∧ (¬ In "admin" (Auth.scopes session) →
     ∀ name, Auth.hasScope session (Js.VFunction name) = false
             ∧ Auth.hasScope session Js.VObjectPrototype = false).
Proof.
  intros Hsub. split_and!.
  - intros scope. rewrite !hasScope_spec, !includes_string.
    intros [Hadmin | (name & -> & Hin)]; [left; by apply Hsub | right; eauto].
  - intros Hnone scope. unfold Auth.hasScope. rewrite Hnone. by destruct scope.
  - intros name. rewrite hasScope_spec. simpl. by rewrite existsb_eqb_In.
  - intros Hnot name.
    assert (Hfalse : ∀ scope, Js.includes (Auth.scopes session) scope = false →
                              Auth.hasScope session scope = false).
    { intros scope Hinc. destruct (Auth.hasScope session scope) eqn:Hhas; [|done].
      apply hasScope_spec in Hhas as [Hadmin | Hyes]; [done | congruence]. }
    split; by apply Hfalse.
Qed.

End StoreOperations.

(** * Further properties of the request handler *)
Section HandlerPaths.
Context {crypto : Crypto}.
Implicit Types (serverInstance : Http.ServerInstance) (env : Env)
  (am : Auth.AuthManager) (req : Http.Request) (sessionId : string).

Lemma extractSessionId_Some req sessionId :
  Http.extractSessionId req = Some sessionId ↔
    Http.sessionIdFromQuery req = Some sessionId
    ∧ Http.sessionIdFromHeader req = Some sessionId
    ∧ sessionId ≠ "".
Proof.
  split.
  - unfold Http.extractSessionId.
    destruct (Http.sessionIdFromQuery req) as [query|]; [|done].
    destruct (Http.sessionIdFromHeader req) as [header|]; simpl;
      [| by rewrite andb_false_r].
    destruct (String.eqb_spec query "") as [->|Hq]; simpl; [done |].
    destruct (String.eqb header ""); simpl; [done |].
    destruct (String.eqb_spec query header) as [->|Hne]; [|done].
    by intros [= ->].
  - intros (Hq & Hh & Hne). by apply extractSessionId_match.
Qed.

Lemma prefix_empty_false (p : string) : p ≠ "" → String.prefix p "" = false.
Proof. by destruct p. Qed.

Lemma handleRequest_handled serverInstance env am req :
  handled serverInstance env am req (Http.handleRequest serverInstance env am req).
Proof.
  unfold Http.handleRequest.
  destruct (String.eqb_spec (Http.verb req) "POST") as [Hverb|Hverb]; simpl;
    [| apply handled_not_found; by left].
  destruct (String.eqb_spec (Http.pathname req) "/mcp/messages") as [Hpath|Hpath]; simpl;
    [| apply handled_not_found; by right].
  assert (Hat : at_endpoint req) by done.
  destruct (Http.authorization req) as [authHeader|] eqn:Hauth;
    [| apply handled_no_bearer; [done | by left]].
  destruct (String.eqb_spec authHeader "") as [->|Hnonempty]; simpl.
  { apply handled_no_bearer; [done |]. right. by exists "". }
  destruct (String.prefix "Bearer " authHeader) eqn:Hbearer; simpl;
    [| apply handled_no_bearer; [done |]; right; by exists authHeader].
  destruct (Auth.validateApiKey (Js.substringFrom 7 authHeader)) eqn:Hkey; simpl;
    [| by eapply handled_bad_key].
  assert (Hok : bearer_accepted req) by (by exists authHeader).
  destruct (Http.extractSessionId req) as [sessionId|] eqn:Hid;
    [| by apply handled_handshake].
  pose proof Hid as Hne. apply extractSessionId_Some in Hne as (_ & _ & Hne).
  apply String.eqb_neq in Hne. rewrite Hne.
  destruct (Auth.validateSession am (clock env) sessionId) as [am' [session|]] eqn:Hvalid.
  - by eapply handled_active.
  - by eapply handled_invalid.
Qed.

Lemma handleRequest_accepted serverInstance env am req :
  at_endpoint req → bearer_accepted req →
  Http.handleRequest serverInstance env am req =
    match Http.extractSessionId req with
    | None => Http.handshake env am (Http.json req)
    | Some sessionId =>
        match Auth.validateSession am (clock env) sessionId with
        | (am', None) => (am', Some (Http.reject 401 "Invalid or expired session"))
        | (am', Some session) =>
            (am', Some (Http.active serverInstance session sessionId (Http.json req)))
        end
    end.
Proof.
  intros [Hverb Hpath] (authHeader & Hauth & Hbearer & Hkey).
  unfold Http.handleRequest. rewrite Hverb, Hpath, Hauth, Hbearer, Hkey.
  assert (String.eqb authHeader "" = false) as ->.
  { apply String.eqb_neq. intros ->. by rewrite prefix_empty_false in Hbearer. }
  simpl.
  destruct (Http.extractSessionId req) as [sessionId|] eqn:Hid; [|done].
  apply extractSessionId_Some in Hid as (_ & _ & Hne).
  apply String.eqb_neq in Hne. by rewrite Hne.
Qed.

(** Closes a goal about an answer that sets no session header. *)
Ltac no_session_header := simpl; split; [tauto | by intros ? [=]].

Lemma active_shape serverInstance session sessionId parsed :
  let response := Http.active serverInstance session sessionId parsed in
  (Http.status response = 200 ∨ Http.status response = 403 ∨ Http.status response = 500)
  ∧ ∀ announced, Http.mcpSessionId response = Some announced →
      announced = sessionId ∧ Http.status response = 200
      ∧ ∃ rpc, Http.body response = Http.JsonBody rpc.
Proof.
  unfold Http.active. destruct parsed as [message|thrown]; [| no_session_header].
  destruct (String.eqb _ _); [no_session_header |].
  destruct (Http.scopeDenied _ _); [no_session_header |].
  unfold Http.dispatch. destruct serverInstance as [receive|].
  - destruct (receive message) as [rpc|thrown]; [| no_session_header].
    simpl. split; [tauto |]. intros announced [= <-]. by eauto.
  - destruct (Mcp.truthyId _); [| no_session_header].
    simpl. split; [tauto |]. intros announced [= <-]. by eauto.
Qed.

(** The three ways through the no-session path. *)
Lemma handshake_cases env am parsed :
  (∃ thrown, parsed = Http.SyntaxError thrown ∧ Http.handshake env am parsed = (am, None))
  ∨ (∃ message, parsed = Http.Parsed message ∧ Mcp.method message = "initialize"
       ∧ Http.handshake env am parsed
         = ((Auth.createSession am env "demo-user" ["read"; "write"]).1,
            Some (Http.reply (Auth.generateSecureSessionId am (entropy env))
                    {| Rpc.jsonrpc := Some "2.0";
                       Rpc.id := Mcp.id message;
                       Rpc.result :=
                         Some (Rpc.ServerInfo "2024-11-05" "blueprints-mcp-server" "1.0.0");
                       Rpc.error := None |})))
  ∨ (∃ message, parsed = Http.Parsed message ∧ Mcp.method message ≠ "initialize"
       ∧ Http.handshake env am parsed
         = (am, Some (Http.reject 401 "Session required for this request"))).
Proof.
  destruct parsed as [message|thrown]; [| left; by eauto].
  unfold Http.handshake.
  destruct (String.eqb_spec (Mcp.method message) "initialize") as [Hinit|Hother].
  - right; left. by exists message.
  - right; right. by exists message.
Qed.

(** Once the URL is parsed the endpoint check comes first, and it alone
    answers 404. *)
Lemma endpoint_check serverInstance env am req :
  (Http.verb req ≠ "POST" ∨ Http.pathname req ≠ "/mcp/messages" →
   Http.handleRequest serverInstance env am req = (am, Some (Http.reject 404 "Not found")))
  ∧ (∀ response, (Http.handleRequest serverInstance env am req).2 = Some response →
       Http.status response = 404 →
       Http.verb req ≠ "POST" ∨ Http.pathname req ≠ "/mcp/messages").
Proof.
  split.
  - intros Hnot. unfold Http.handleRequest.
    destruct (String.eqb_spec (Http.verb req) "POST") as [Hverb|Hverb]; [|done].
    destruct (String.eqb_spec (Http.pathname req) "/mcp/messages") as [Hpath|Hpath]; [|done].
    by destruct Hnot.
  - intros response.
    destruct (handleRequest_handled serverInstance env am req)
      as [Hnot|_ _|? _ _ _ _|_ _ _|? ? _ _ _ _|sessionId am' session _ _ _ _]; simpl.
    + done.
    + by intros [= <-].
    + by intros [= <-].
    + destruct (handshake_cases env am (Http.json req))
        as [(? & _ & ->) | [(? & _ & _ & ->) | (? & _ & _ & ->)]]; simpl; by intros [= <-].
    + by intros [= <-].
    + intros [= <-] Hstatus.
      destruct (active_shape serverInstance session sessionId (Http.json req))
        as [[H|[H|H]] _]; congruence.
Qed.

(** X9. At the endpoint, a request with no [Authorization] header, or one that
    does not start with [Bearer ] (the empty header included), is answered
    401 before any session logic: the store is not touched, whatever
    session identifiers and body the request carries. *)
Theorem bearer_required serverInstance env am req :
  at_endpoint req →
  (Http.authorization req = None
   ∨ ∃ authHeader, Http.authorization req = Some authHeader
                   ∧ String.prefix "Bearer " authHeader = false) →
  Http.handleRequest serverInstance env am req
  = (am, Some (Http.reject 401 "Missing or invalid authorization header")).
Proof.
  intros [Hverb Hpath] Hauth. unfold Http.handleRequest. rewrite Hverb, Hpath. simpl.
  destruct Hauth as [-> | (authHeader & -> & ->)]; [done |].
  by rewrite orb_true_r.
Qed.

(** X5. Every answer has status 200, 401, 403, 404 or 500.  The
    [mcp-session-id] response header is only ever set on a 200 answer with
    a JSON body, and the identifier it announces is that of a record the
    store holds once the request is handled. *)
Theorem response_shape serverInstance env am req response :
  (Http.handleRequest serverInstance env am req).2 = Some response →
  In (Http.status response) [200; 401; 403; 404; 500]
  ∧ ∀ announced, Http.mcpSessionId response = Some announced →
      Http.status response = 200
      ∧ (∃ rpc, Http.body response = Http.JsonBody rpc)
      ∧ is_Some (Auth.sessions (Http.handleRequest serverInstance env am req).1 !! announced).
Proof.
  destruct (handleRequest_handled serverInstance env am req)
    as [_|_ _|? _ _ _ _|_ _ _|? ? _ _ _ _|sessionId am' session _ _ _ Hvalid]; simpl.
  - intros [= <-]. simpl. split; [tauto | done].
  - intros [= <-]. simpl. split; [tauto | done].
  - intros [= <-]. simpl. split; [tauto | done].
  - destruct (handshake_cases env am (Http.json req))
      as [(? & _ & ->) | [(? & _ & _ & ->) | (? & _ & _ & ->)]]; simpl; [done | |].
    + intros [= <-]. simpl. split; [tauto |].
      intros announced [= <-]. split_and!; [done | by eauto |].
      rewrite lookup_insert_eq. by eauto.
    + intros [= <-]. simpl. split; [tauto | done].
  - intros [= <-]. simpl. split; [tauto | done].
  - intros [= <-].
    destruct (active_shape serverInstance session sessionId (Http.json req))
      as [Hstatus Hheader].
    split; [destruct Hstatus as [-> | [-> | ->]]; simpl; tauto |].
    intros announced Hannounced.
    destruct (Hheader announced Hannounced) as (-> & H200 & Hbody).
    split_and!; [done | done |].
    destruct (validateSession_cases am (clock env) sessionId)
      as [Hget|old Hget Hexp|old Hget Hlive]; try done.
    injection Hvalid as <- _. simpl. rewrite lookup_insert_eq. by eauto.
Qed.

(** X10. A session identifier is taken from a request exactly when the query
    parameter and the header carry the same non-empty string; one channel
    alone, two different values, or two empty values give none. *)
Theorem session_id_both_channels req :
  (∀ sessionId, Http.extractSessionId req = Some sessionId ↔
     Http.sessionIdFromQuery req = Some sessionId
     ∧ Http.sessionIdFromHeader req = Some sessionId
     ∧ sessionId ≠ "")
  ∧ Http.extractSessionId req ≠ Some ""
  ∧ (Http.sessionIdFromQuery req = Some "" → Http.extractSessionId req = None)
  ∧ (Http.sessionIdFromQuery req ≠ Http.sessionIdFromHeader req →
     Http.extractSessionId req = None).
Proof.
  split_and!.
  - apply extractSessionId_Some.
  - intros Hempty. by apply extractSessionId_Some in Hempty as (_ & _ & ?).
  - intros Hq. destruct (Http.extractSessionId req) as [sessionId|] eqn:Hid; [|done].
    apply extractSessionId_Some in Hid as (Hq' & _ & Hne). congruence.
  - intros Hdiff. destruct (Http.extractSessionId req) as [sessionId|] eqn:Hid; [|done].
    apply extractSessionId_Some in Hid as (Hq & Hh & _). congruence.
Qed.

Lemma validateSession_store am now sessionId :
  let am' := (Auth.validateSession am now sessionId).1 in
  Auth.secret am' = Auth.secret am
  ∧ (∀ key, key ≠ sessionId → Auth.sessions am' !! key = Auth.sessions am !! key)
  ∧ (∀ session', Auth.sessions am' !! sessionId = Some session' →
       ∃ session, Auth.sessions am !! sessionId = Some session
                  ∧ session' = Auth.set_lastActivity session now).
Proof.
  destruct (validateSession_cases am now sessionId)
    as [Hget|session Hget Hexp|session Hget Hlive]; simpl.
  - split_and!; [done | done |]. intros session'. by rewrite Hget.
  - split_and!; [done | intros key Hne; by apply lookup_delete_ne |].
    intros session'. by rewrite lookup_delete_eq.
  - split_and!; [done | intros key Hne; by apply lookup_insert_ne |].
    intros session'. rewrite lookup_insert_eq. intros [= <-]. by eauto.
Qed.

(** X4. What a request does to the store, in full.  A request that is not
    at the endpoint or whose bearer key is not accepted leaves it as it is.
    An accepted request that carries an identifier on both channels leaves
    what validating that identifier leaves.  An accepted request without
    identifier leaves what creating the default session leaves when its
    body is an [initialize] message, and the store as it is otherwise.
    Hence the secret is kept; a record is touched only under the carried
    identifier, or under the generated identifier when the request starts a
    session (a record already there is then replaced); and a record appears
    only under the generated identifier of a request that starts a
    session. *)
Theorem handleRequest_frame serverInstance env am req :
  let am' := (Http.handleRequest serverInstance env am req).1 in
  let generated := Auth.generateSecureSessionId am (entropy env) in
  (¬ (at_endpoint req ∧ bearer_accepted req) → am' = am)
  ∧ (at_endpoint req → bearer_accepted req →
     (∀ sessionId, Http.extractSessionId req = Some sessionId →
        am' = (Auth.validateSession am (clock env) sessionId).1)
     ∧ (Http.extractSessionId req = None →
        (∀ message, Http.json req = Http.Parsed message →
           Mcp.method message = "initialize" →
           am' = (Auth.createSession am env "demo-user" ["read"; "write"]).1)
        ∧ (∀ message, Http.json req = Http.Parsed message →
             Mcp.method message ≠ "initialize" → am' = am)
        ∧ (∀ thrown, Http.json req = Http.SyntaxError thrown → am' = am)))
  ∧ Auth.secret am' = Auth.secret am
  ∧ (∀ key, Http.extractSessionId req ≠ Some key →
            (key = generated → ¬ starts_session req) →
            Auth.sessions am' !! key = Auth.sessions am !! key)
  ∧ (starts_session req →
     Auth.sessions am' !! generated
     = Some (Auth.createSession am env "demo-user" ["read"; "write"]).2)
  ∧ (∀ key, Auth.sessions am !! key = None → is_Some (Auth.sessions am' !! key) →
       key = generated ∧ starts_session req).
Proof.
  intros am' generated.
  assert (Haccepted : at_endpoint req → bearer_accepted req →
            (∀ sessionId, Http.extractSessionId req = Some sessionId →
               am' = (Auth.validateSession am (clock env) sessionId).1)
            ∧ (Http.extractSessionId req = None →
               (∀ message, Http.json req = Http.Parsed message →
                  Mcp.method message = "initialize" →
                  am' = (Auth.createSession am env "demo-user" ["read"; "write"]).1)
               ∧ (∀ message, Http.json req = Http.Parsed message →
                    Mcp.method message ≠ "initialize" → am' = am)
               ∧ (∀ thrown, Http.json req = Http.SyntaxError thrown → am' = am))).
  { intros Hat Hok. unfold am'. rewrite (handleRequest_accepted _ _ _ _ Hat Hok). split.
    - intros sessionId ->.
      by destruct (Auth.validateSession am (clock env) sessionId) as [am1 [session|]].
    - intros ->. unfold Http.handshake. split_and!.
      + intros message -> ->. done.
      + intros message -> Hother. apply String.eqb_neq in Hother. by rewrite Hother.
      + by intros thrown ->. }
  assert (Hrefused : ¬ (at_endpoint req ∧ bearer_accepted req) → am' = am).
  { intros Hnot. unfold am'.
    destruct (handleRequest_handled serverInstance env am req)
      as [_|_ _|? _ _ _ _|Hat Hok _|? ? Hat Hok _ _|? ? ? Hat Hok _ _]; simpl;
      try done; by destruct Hnot. }
  assert (Hcases :
            am' = am
            ∨ (∃ sessionId, Http.extractSessionId req = Some sessionId
                            ∧ am' = (Auth.validateSession am (clock env) sessionId).1)
            ∨ (starts_session req
               ∧ am' = (Auth.createSession am env "demo-user" ["read"; "write"]).1)).
  { pose proof (handleRequest_handled serverInstance env am req) as Hpath.
    clear Hrefused. unfold am' in *. clear am'.
    remember (Http.handleRequest serverInstance env am req) as result eqn:Hresult.
    clear Hresult.
    destruct Hpath
      as [_|_ _|? _ _ _ _|Hat Hok Hid|sessionId am1 Hat Hok Hid Hrun
          |sessionId am1 session Hat Hok Hid Hrun];
      try (left; reflexivity).
    - destruct (Haccepted Hat Hok) as [_ Hnone].
      destruct (Hnone Hid) as (Hinit & Hother & Hthrown).
      destruct (Http.json req) as [message|thrown] eqn:Hjson; [| left; by eapply Hthrown].
      destruct (decide (Mcp.method message = "initialize")) as [Hm|Hm].
      + right; right. split; [| by eapply Hinit]. split_and!; try done. by exists message.
      + left. by eapply Hother.
    - right; left. exists sessionId. split; [done |]. by apply (Haccepted Hat Hok).
    - right; left. exists sessionId. split; [done |]. by apply (Haccepted Hat Hok). }
  clearbody am'. split_and!.
  - exact Hrefused.
  - exact Haccepted.
  - destruct Hcases as [-> | [(sessionId & _ & ->) | [_ ->]]]; [done | | done].
    apply validateSession_store.
  - intros key Hne Hgen.
    destruct Hcases as [-> | [(sessionId & Hid & ->) | [Hstarts ->]]]; [done | |].
    + apply validateSession_store. congruence.
    + simpl. apply lookup_insert_ne. intros Heq. by apply Hgen.
  - intros Hstarts.
    destruct Hcases as [-> | [(sessionId & Hid & ->) | [_ ->]]].
    + destruct Hstarts as (Hat & Hok & Hnone & message & Hjson & Hinit).
      destruct (Haccepted Hat Hok) as [_ Hno]. destruct (Hno Hnone) as (Hcreate & _ & _).
      rewrite (Hcreate message Hjson Hinit). apply lookup_insert_eq.
    + destruct Hstarts as (_ & _ & Hnone & _). congruence.
    + apply lookup_insert_eq.
  - intros key Hnone [session' Hsome].
    destruct Hcases as [-> | [(sessionId & Hid & ->) | [Hstarts ->]]].
    + congruence.
    + destruct (validateSession_store am (clock env) sessionId) as (_ & Hother & Hsame).
      destruct (decide (key = sessionId)) as [->|Hne].
      * destruct (Hsame _ Hsome) as (session & Hget & _). congruence.
      * rewrite (Hother _ Hne) in Hsome. congruence.
    + split; [| done]. simpl in Hsome.
      destruct (decide (key = generated)) as [->|Hne]; [done |].
      rewrite lookup_insert_ne in Hsome by done. congruence.
Qed.

Lemma handler_store_new secret : handler_store (Auth.new secret).
Proof. intros key session Hget. simpl in Hget. by rewrite lookup_empty in Hget. Qed.

Lemma handleRequest_handler_store serverInstance env am req :
  handler_store am → handler_store (Http.handleRequest serverInstance env am req).1.
Proof.
  intros Hstore.
  assert (Hvalid : ∀ sessionId, handler_store (Auth.validateSession am (clock env) sessionId).1).
  { intros sessionId key session' Hget'.
    destruct (validateSession_store am (clock env) sessionId) as (_ & Hother & Hsame).
    destruct (decide (key = sessionId)) as [->|Hne].
    - destruct (Hsame _ Hget') as (session & Hget & ->). by apply Hstore in Hget.
    - rewrite (Hother _ Hne) in Hget'. by apply Hstore in Hget'. }
  destruct (handleRequest_handled serverInstance env am req)
    as [_|_ _|? _ _ _ _|_ _ Hid|sessionId am' _ _ Hid Hrun|sessionId am' session _ _ Hid Hrun];
    simpl; try done.
  - destruct (handshake_cases env am (Http.json req))
      as [(? & _ & ->) | [(message & Hjson & Hinit & ->) | (? & _ & _ & ->)]]; simpl;
      try done.
    intros key session. simpl.
    destruct (decide (key = Auth.generateSecureSessionId am (entropy env))) as [->|Hne].
    + rewrite lookup_insert_eq. by intros [= <-].
    + rewrite lookup_insert_ne by done. apply Hstore.
  - specialize (Hvalid sessionId). by rewrite Hrun in Hvalid.
  - specialize (Hvalid sessionId). by rewrite Hrun in Hvalid.
Qed.

(** X3. However many requests the server has handled since it started, every
    session in its store is kept under its own identifier, belongs to the
    placeholder user, has exactly the scopes [read] and [write], and
    expires 30 minutes after its creation. *)
Theorem serve_store_shape serverInstance secret requests :
  handler_store (Http.serve serverInstance (Auth.new secret) requests).1.
Proof.
  assert (Hgen : ∀ am, handler_store am →
                       handler_store (Http.serve serverInstance am requests).1).
  { induction requests as [|[env req] rest IH]; intros am Hstore; simpl; [done |].
    pose proof (handleRequest_handler_store serverInstance env am req Hstore) as Hnext.
    destruct (Http.handleRequest serverInstance env am req) as [am' response].
    specialize (IH am' Hnext).
    by destruct (Http.serve serverInstance am' rest) as [am'' responses]. }
  apply Hgen, handler_store_new.
Qed.




(** X6. A body that does not parse.  On the no-session path nothing catches
    the error: no answer is written and the store is as before.  With a
    valid session the error is caught: the answer is 500 with the error's
    message (or [Internal server error] when it has none), and the session
    has been touched all the same. *)
Theorem unparsable_body serverInstance env am req thrown :
  at_endpoint req → bearer_accepted req →
  Http.json req = Http.SyntaxError thrown →
  (Http.extractSessionId req = None →
   Http.handleRequest serverInstance env am req = (am, None))
  ∧ (∀ sessionId am' session,
       Http.extractSessionId req = Some sessionId →
       Auth.validateSession am (clock env) sessionId = (am', Some session) →
       Http.handleRequest serverInstance env am req
       = (am', Some (Http.reject 500
                       (if String.eqb thrown "" then "Internal server error" else thrown)))
       ∧ Auth.sessions am' !! sessionId = Some session
       ∧ Auth.lastActivity session = clock env).
Proof.
  intros Hat Hok Hjson. rewrite (handleRequest_accepted _ _ _ _ Hat Hok), Hjson. split.
  - by intros ->.
  - intros sessionId am' session -> Hrun. rewrite Hrun. split; [done |].
    destruct (validateSession_cases am (clock env) sessionId)
      as [Hget|old Hget Hexp|old Hget Hlive]; try done.
    injection Hrun as <- <-. simpl. split; [apply lookup_insert_eq | done].
Qed.

(** X7. An [initialize] request that arrives with a valid session does not
    start a new one: it is forwarded like any method that needs no scope,
    and the store holds the same identifiers as before. *)
Theorem initialize_with_session serverInstance env am req sessionId am' session message :
  at_endpoint req → bearer_accepted req →
  Http.extractSessionId req = Some sessionId →
  Auth.validateSession am (clock env) sessionId = (am', Some session) →
  Http.json req = Http.Parsed message →
  Mcp.method message = "initialize" →
  Http.handleRequest serverInstance env am req
  = (am', Some match Http.dispatch serverInstance sessionId message with
               | inl response => response
               | inr thrown => Http.internalError thrown
               end)
  ∧ dom (Auth.sessions am') = dom (Auth.sessions am).
Proof.
  intros Hat Hok Hid Hrun Hjson Hinit.
  rewrite (handleRequest_accepted _ _ _ _ Hat Hok), Hid, Hrun, Hjson. split.
  - unfold Http.active. rewrite Hinit. reflexivity.
  - destruct (validateSession_cases am (clock env) sessionId)
      as [Hget|old Hget Hexp|old Hget Hlive]; try done.
    injection Hrun as <- _. simpl. apply dom_insert_lookup_L. by eauto.
Qed.

(** X1. Handshake, then use.  After an [initialize] request without session
    identifier, the identifier announced in the answer, sent back on both
    channels, is accepted up to and including 30 minutes after the
    handshake and the request continues in the Active state with the
    session of the placeholder user, touched; later than that it is
    answered 401 and the record is gone from the store. *)
Theorem handshake_then_use serverInstance env env' am first req message :
  let sessionId := Auth.generateSecureSessionId am (entropy env) in
  let am1 := (Http.handleRequest serverInstance env am first).1 in
  let session :=
    {| Auth.id := sessionId; Auth.userId := "demo-user";
       Auth.createdAt := clock env; Auth.lastActivity := clock env';
       Auth.scopes := ["read"; "write"];
       Auth.expiresAt := clock env + 30 * 60 * 1000 |} in
  at_endpoint first → bearer_accepted first →
  Http.extractSessionId first = None →
  Http.json first = Http.Parsed message →
  Mcp.method message = "initialize" →
  at_endpoint req → bearer_accepted req →
  Http.extractSessionId req = Some sessionId →
  (∃ response, (Http.handleRequest serverInstance env am first).2 = Some response
               ∧ Http.status response = 200
               ∧ Http.mcpSessionId response = Some sessionId)
  ∧ (clock env' ≤ clock env + 30 * 60 * 1000 →
     Http.handleRequest serverInstance env' am1 req
     = (Auth.set_sessions am1 (<[sessionId := session]> (Auth.sessions am1)),
        Some (Http.active serverInstance session sessionId (Http.json req))))
  ∧ (clock env + 30 * 60 * 1000 < clock env' →
     Http.handleRequest serverInstance env' am1 req
     = (Auth.destroySession am1 sessionId,
        Some (Http.reject 401 "Invalid or expired session"))
     ∧ Auth.sessions (Auth.destroySession am1 sessionId) !! sessionId = None).
Proof.
  intros sessionId am1 session Hat Hok Hnone Hjson Hinit Hat' Hok' Hid.
  assert (Hfirst : Http.handleRequest serverInstance env am first
                   = ((Auth.createSession am env "demo-user" ["read"; "write"]).1,
                      Some (Http.reply sessionId
                              {| Rpc.jsonrpc := Some "2.0";
                                 Rpc.id := Mcp.id message;
                                 Rpc.result :=
                                   Some (Rpc.ServerInfo "2024-11-05"
                                           "blueprints-mcp-server" "1.0.0");
                                 Rpc.error := None |}))).
  { rewrite (handleRequest_accepted _ _ _ _ Hat Hok), Hnone, Hjson.
    unfold Http.handshake. by rewrite Hinit. }
  assert (Hstored : Auth.sessions am1 !! sessionId
                    = Some (Auth.createSession am env "demo-user" ["read"; "write"]).2).
  { unfold am1. rewrite Hfirst. apply lookup_insert_eq. }
  split_and!.
  - rewrite Hfirst. by eexists.
  - intros Hlive. rewrite (handleRequest_accepted _ _ _ _ Hat' Hok'), Hid.
    by rewrite (validateSession_live _ _ _ _ Hstored Hlive).
  - intros Hexp. rewrite (handleRequest_accepted _ _ _ _ Hat' Hok'), Hid.
    rewrite (validateSession_expired _ _ _ _ Hstored Hexp).
    split; [done | apply lookup_delete_eq].
Qed.

(** X8. The URL is parsed first, outside any [try]: when it does not parse,
    no answer is written and the store is not touched, whatever the
    request.  When it parses, a request that is not a POST to
    [/mcp/messages] is answered 404, not found, with the store not touched,
    whatever its authorization, session identifiers and body; and an
    answer 404 is only ever given to such a request. *)
Theorem not_found_first (newURL : Wire.NewURL) serverInstance env am
    (incoming : Wire.IncomingMessage) :
  (newURL (Wire.href incoming) = None →
   Wire.handleRequest newURL serverInstance env am incoming = (am, None))
  ∧ (∀ parsed, newURL (Wire.href incoming) = Some parsed →
       Wire.method incoming ≠ "POST" ∨ Wire.pathname parsed ≠ "/mcp/messages" →
       Wire.handleRequest newURL serverInstance env am incoming
       = (am, Some (Http.reject 404 "Not found")))
  ∧ (∀ response,
       (Wire.handleRequest newURL serverInstance env am incoming).2 = Some response →
       Http.status response = 404 →
       ∃ parsed, newURL (Wire.href incoming) = Some parsed
                 ∧ (Wire.method incoming ≠ "POST"
                    ∨ Wire.pathname parsed ≠ "/mcp/messages")).
Proof.
  unfold Wire.handleRequest. split_and!.
  - by intros ->.
  - intros parsed -> Hnot. by apply endpoint_check.
  - intros response.
    destruct (newURL (Wire.href incoming)) as [parsed|]; [| done].
    intros Hanswer H404. exists parsed. split; [done |].
    by apply (proj2 (endpoint_check serverInstance env am _) response Hanswer H404).
Qed.

End HandlerPaths.

(** * The scope table and the tool registry *)
Section ScopeTable.

Lemma own_In (props : list (string * string)) (key v : string) :
  Js.own props key = Some v → In (key, v) props.
Proof.
  induction props as [|[k w] rest IH]; simpl; [done |].
  destruct (String.eqb_spec k key) as [->|_].
  - intros [= ->]. by left.
  - intros Hrest. right. by apply IH.
Qed.

Lemma getRequiredScope_string method name :
  Http.getRequiredScope method = Some (Js.VString name) →
  Js.own Http.scopeMap method = Some name.
Proof.
  unfold Http.getRequiredScope, Js.get.
  destruct (Js.own Http.scopeMap method) as [v|].
  - destruct (Js.truthy (Js.VString v)); [by intros [= ->] | done].
  - unfold Js.Object_prototype.
    destruct (String.eqb method "constructor"); [done |].
    destruct (String.eqb method "__proto__"); [done |].
    by destruct (existsb _ _).
Qed.

(** X11. The scope table and the tool registry agree.  Every registered tool
    has a required scope under both spellings, one of [read], [write],
    [execute] and [terminal]; and a method for which a scope name is
    required is a registered tool under one of the two spellings.  No
    method requires [admin]. *)
Theorem scope_table_matches_tools :
  (∀ op, In op Server.registeredTools →
     ∃ name, Http.getRequiredScope op = Some (Js.VString name)
             ∧ Http.getRequiredScope ("tools/" ++ op) = Some (Js.VString name)
             ∧ In name ["read"; "write"; "execute"; "terminal"])
  ∧ (∀ method name, Http.getRequiredScope method = Some (Js.VString name) →
       In name ["read"; "write"; "execute"; "terminal"]
       ∧ (In method Server.registeredTools
          ∨ ∃ op, In op Server.registeredTools ∧ method = "tools/" ++ op)).
Proof.
  split.
  - intros op Hin. unfold Server.registeredTools in Hin. simpl in Hin.
    repeat (destruct Hin as [<- | Hin];
            [eexists; split_and!; [reflexivity | reflexivity | simpl; tauto] |]).
    done.
  - intros method name Hreq.
    apply getRequiredScope_string, own_In in Hreq.
    unfold Http.scopeMap in Hreq. simpl in Hreq.
    repeat (destruct Hreq as [[= <- <-] | Hreq];
            [split; [simpl; tauto |];
             first [ left; simpl; tauto
                   | right; eexists; split; [| reflexivity]; simpl; tauto ] |]).
    done.
Qed.

End ScopeTable.

(** * The backend client *)
Section ApiClient.
Implicit Types (c : Api.Client) (fetch : Api.Fetch).

Lemma substring_split (s : string) (n : nat) :
  (n ≤ String.length s)%nat →
  String.substring 0 n s ++ String.substring n (String.length s - n) s = s.
Proof.
  revert s. induction n as [|n IH]; intros s Hle.
  - rewrite Nat.sub_0_r, substring_all. by destruct s.
  - destruct s as [|ch s]; simpl in *; [lia |].
    change (String ch (String.substring 0 n s
                       ++ String.substring n (String.length s - n) s) = String ch s).
    rewrite IH by lia. done.
Qed.

Lemma substring_append_l (a b : string) :
  String.substring 0 (String.length a) (a ++ b) = a.
Proof. induction a as [|ch a IH]; simpl; [by destruct b | by rewrite IH]. Qed.

Lemma substring_append_r (a b : string) (n : nat) :
  String.substring (String.length a) n (a ++ b) = String.substring 0 n b.
Proof. induction a as [|ch a IH]; simpl; done. Qed.

Lemma endsWith_slash (s : string) :
  Js.endsWith s "/" = true ↔ ∃ b, s = b ++ "/".
Proof.
  unfold Js.endsWith. change (String.length "/") with 1%nat.
  rewrite andb_true_iff, Nat.leb_le, String.eqb_eq. split.
  - intros [Hlen Hlast].
    exists (String.substring 0 (String.length s - 1) s).
    assert (Hsplit := substring_split s (String.length s - 1)).
    replace (String.length s - (String.length s - 1))%nat with 1%nat in Hsplit by lia.
    rewrite Hlast in Hsplit. symmetry. apply Hsplit. lia.
  - intros (b & ->). rewrite length_append.
    change (String.length "/") with 1%nat.
    replace (String.length b + 1 - 1)%nat with (String.length b) by lia.
    rewrite substring_append_r. split; [lia | done].
Qed.

Lemma sliceDropLast_slash (b : string) : Js.sliceDropLast (b ++ "/") = b.
Proof.
  unfold Js.sliceDropLast. rewrite length_append. simpl.
  replace (String.length b + 1 - 1)%nat with (String.length b) by lia.
  apply substring_append_l.
Qed.

(** X22. The client drops one trailing slash of its base URL, and only one: a
    base given with or without it yields the same client, so that the URL
    of a call is the base followed by the endpoint with a single slash
    between them; a base that does not end in a slash is kept as it is. *)
Theorem base_url_normalised (base apiKey : string) :
  Api.new (base ++ "/") apiKey = {| Api.baseUrl := base; Api.apiKey := apiKey |}
  ∧ ((¬ ∃ b, base = b ++ "/") →
     Api.new base apiKey = {| Api.baseUrl := base; Api.apiKey := apiKey |}
     ∧ Api.new (base ++ "/") apiKey = Api.new base apiKey)
  ∧ (∀ endpoint options,
       Api.url (Api.prepare (Api.new (base ++ "/") apiKey) endpoint options)
       = base ++ endpoint)
  ∧ Api.baseUrl (Api.new ((base ++ "/") ++ "/") apiKey) = base ++ "/".
Proof.
  assert (Hstrip : ∀ b, Api.new (b ++ "/") apiKey
                        = {| Api.baseUrl := b; Api.apiKey := apiKey |}).
  { intros b. unfold Api.new.
    assert (Js.endsWith (b ++ "/") "/" = true) as -> by (apply endsWith_slash; by exists b).
    by rewrite sliceDropLast_slash. }
  split_and!.
  - apply Hstrip.
  - intros Hno.
    assert (Hkeep : Api.new base apiKey = {| Api.baseUrl := base; Api.apiKey := apiKey |}).
    { unfold Api.new. destruct (Js.endsWith base "/") eqn:Hends; [|done].
      apply endsWith_slash in Hends. done. }
    split; [done |]. by rewrite Hstrip, Hkeep.
  - intros endpoint options. by rewrite Hstrip.
  - by rewrite Hstrip.
Qed.

Lemma own_setProp (props : list (string * string)) (key v key' : string) :
  Js.own (Js.setProp props key v) key'
  = if String.eqb key key' then Some v else Js.own props key'.
Proof.
  induction props as [|[k w] rest IH]; simpl.
  - done.
  - destruct (String.eqb_spec k key) as [->|Hne]; simpl.
    + by destruct (String.eqb_spec key key').
    + rewrite IH. destruct (String.eqb_spec k key') as [->|_]; [|done].
      by destruct (String.eqb_spec key key').
Qed.

Lemma own_spread (target source : list (string * string)) (key : string) :
  Js.own (Js.spread target source) key
  = match Js.own (rev source) key with
    | Some v => Some v
    | None => Js.own target key
    end.
Proof.
  unfold Js.spread. revert target.
  induction source as [|[k v] rest IH] using rev_ind; intros target; [done |].
  rewrite fold_left_app, rev_app_distr. simpl.
  rewrite own_setProp. destruct (String.eqb k key); [done | apply IH].
Qed.

(** X23. The headers of a call: [Authorization] is [Bearer ] followed by the
    client's key and [Content-Type] is [application/json], unless the
    caller's options carry a header of that name, which then wins; none of
    the client's own operations passes headers, so they all send the
    client's key. *)
Theorem call_headers c endpoint options :
  let sent := Api.headers (Api.init (Api.prepare c endpoint options)) in
  (Js.own sent "Authorization"
   = match Js.own (rev (Api.headers options)) "Authorization" with
     | Some v => Some v
     | None => Some ("Bearer " ++ Api.apiKey c)
     end)
  ∧ (Js.own sent "Content-Type"
     = match Js.own (rev (Api.headers options)) "Content-Type" with
       | Some v => Some v
       | None => Some "application/json"
       end)
  ∧ (Api.headers options = [] →
     sent = [ ("Authorization", "Bearer " ++ Api.apiKey c);
              ("Content-Type", "application/json") ])
  ∧ Api.url (Api.prepare c endpoint options) = Api.baseUrl c ++ endpoint.
Proof.
  intros sent. subst sent. unfold Api.prepare. simpl. split_and!.
  - by rewrite own_spread.
  - by rewrite own_spread.
  - by intros ->.
  - done.
Qed.

(** X24. A call succeeds only on an exchange that completed with an [ok]
    response whose body parsed: the value returned is then that body; a
    response that is not [ok] gives the error [HTTP status: statusText]
    and its body is not looked at. *)
Theorem makeRequest_success fetch c endpoint options :
  (∀ value, Api.makeRequest fetch c endpoint options = inl value ↔
     ∃ response, fetch (Api.prepare c endpoint options) = inl response
                 ∧ Api.ok response = true ∧ Api.json response = inl value)
  ∧ (∀ response, fetch (Api.prepare c endpoint options) = inl response →
       Api.ok response = false →
       Api.makeRequest fetch c endpoint options
       = inr ("HTTP " ++ pretty (Api.status response) ++ ": " ++ Api.statusText response)).
Proof.
  unfold Api.makeRequest. split.
  - intros value.
    destruct (fetch (Api.prepare c endpoint options)) as [response|thrown].
    + destruct (Api.ok response) eqn:Hok; simpl.
      * split; [by eauto | by intros (? & [= <-] & _ & ?)].
      * split; [done | intros (? & [= <-] & ? & _); congruence].
    + split; [done | by intros (? & [=] & _)].
  - intros response -> ->. done.
Qed.

End ApiClient.

(** ** The further statements at concrete inputs *)

Lemma sample_at_endpoint query header id method :
  at_endpoint (Sample.request query header id method).
Proof. by split. Qed.

Lemma sample_bearer_accepted query header id method :
  bearer_accepted (Sample.request query header id method).
Proof. exists ("Bearer " ++ Sample.token). by split_and!. Qed.


Lemma sample_validation :
  Auth.validateSession Sample.manager (clock Sample.later) Sample.sid
  = (Auth.set_sessions Sample.manager
       (<[Sample.sid := Auth.set_lastActivity Sample.session (clock Sample.later)]>
          (Auth.sessions Sample.manager)),
     Some (Auth.set_lastActivity Sample.session (clock Sample.later))).
Proof. by apply validateSession_live; [apply manager_holds_session |]. Qed.

Lemma cleanup_then_validate_witness :
  1700000300000 ≤ clock Sample.later
  ∧ (Auth.validateSession (Auth.cleanupExpiredSessions Sample.manager 1700000300000)
       (clock Sample.later) Sample.sid).2
    = (Auth.validateSession Sample.manager (clock Sample.later) Sample.sid).2.
Proof.
  assert (Hclock : 1700000300000 ≤ clock Sample.later) by (vm_compute; discriminate).
  split; [exact Hclock |].
  exact (proj1 (cleanup_then_validate Sample.manager 1700000300000 (clock Sample.later)
                  Sample.sid Hclock)).
Defined.

Lemma refused_stays_refused_witness :
  (Auth.validateSession Sample.manager 1700001800001 Sample.sid).2 = None
  ∧ Auth.validateSession
      (Auth.validateSession Sample.manager 1700001800001 Sample.sid).1
      (clock Sample.env) Sample.sid
    = ((Auth.validateSession Sample.manager 1700001800001 Sample.sid).1, None).
Proof.
  assert (Hrefused : (Auth.validateSession Sample.manager 1700001800001 Sample.sid).2 = None)
    by (vm_compute; reflexivity).
  split; [exact Hrefused |].
  exact (refused_stays_refused Sample.manager 1700001800001 Sample.sid Hrefused
           (clock Sample.env)).
Defined.

Lemma validateSession_twice_witness :
  Auth.sessions Sample.manager !! Sample.sid = Some Sample.session
  ∧ 1700000300000 ≤ Auth.expiresAt Sample.session
  ∧ Auth.validateSession
      (Auth.validateSession Sample.manager 1700000300000 Sample.sid).1
      (clock Sample.later) Sample.sid
    = Auth.validateSession Sample.manager (clock Sample.later) Sample.sid.
Proof.
  assert (Hget : Auth.sessions Sample.manager !! Sample.sid = Some Sample.session)
    by (vm_compute; reflexivity).
  assert (Hfirst : 1700000300000 ≤ Auth.expiresAt Sample.session)
    by (vm_compute; discriminate).
  split; [exact Hget |]. split; [exact Hfirst |].
  exact (validateSession_twice Sample.manager 1700000300000 (clock Sample.later)
           Sample.sid Sample.session Hget Hfirst).
Defined.

Lemma hasScope_monotone_witness :
  let granted :=
    {| Auth.id := Sample.sid; Auth.userId := "demo-user";
       Auth.createdAt := 1700000000000; Auth.lastActivity := 1700000000000;
       Auth.scopes := ["read"; "write"; "execute"]; Auth.expiresAt := 1700001800000 |} in
  (∀ name, In name (Auth.scopes Sample.session) → In name (Auth.scopes granted))
  ∧ (Auth.hasScope Sample.session (Js.VString "write") = true →
     Auth.hasScope granted (Js.VString "write") = true).
Proof.
  intros granted.
  assert (Hsub : ∀ name, In name (Auth.scopes Sample.session) →
                         In name (Auth.scopes granted)) by (simpl; tauto).
  split; [exact Hsub |].
  exact (proj1 (hasScope_monotone Sample.session granted Hsub) (Js.VString "write")).
Defined.

Lemma bearer_required_witness :
  let req :=
    {| Http.verb := "POST"; Http.pathname := "/mcp/messages";
       Http.sessionIdFromQuery := Some Sample.sid;
       Http.sessionIdFromHeader := Some Sample.sid;
       Http.authorization := Some "bearer bp_sk_test_key";
       Http.json := Http.Parsed {| Mcp.id := Some (Mcp.IdNumber 1);
                                   Mcp.method := "list_agents" |} |} in
  String.prefix "Bearer " "bearer bp_sk_test_key" = false
  ∧ @Http.handleRequest Sample.crypto None Sample.later Sample.manager req
    = (Sample.manager, Some (Http.reject 401 "Missing or invalid authorization header")).
Proof.
  intros req. split; [reflexivity |].
  apply (bearer_required (crypto := Sample.crypto) None Sample.later Sample.manager req).
  - split; reflexivity.
  - right. exists "bearer bp_sk_test_key". split; reflexivity.
Defined.

Lemma response_shape_witness :
  let req := Sample.request None None (Some (Mcp.IdNumber 1)) "initialize" in
  let response :=
    Http.reply Sample.sid
      {| Rpc.jsonrpc := Some "2.0"; Rpc.id := Some (Mcp.IdNumber 1);
         Rpc.result := Some (Rpc.ServerInfo "2024-11-05" "blueprints-mcp-server" "1.0.0");
         Rpc.error := None |} in
  (@Http.handleRequest Sample.crypto None Sample.env (Auth.new "k") req).2 = Some response
  ∧ is_Some (Auth.sessions
               (@Http.handleRequest Sample.crypto None Sample.env (Auth.new "k") req).1
               !! Sample.sid).
Proof.
  intros req response.
  assert (Hanswer : (@Http.handleRequest Sample.crypto None Sample.env (Auth.new "k") req).2
                    = Some response) by reflexivity.
  split; [exact Hanswer |].
  destruct (response_shape (crypto := Sample.crypto) None Sample.env (Auth.new "k") req
              response Hanswer) as [_ Hheader].
  exact (proj2 (proj2 (Hheader Sample.sid eq_refl))).
Defined.


Lemma unparsable_body_witness :
  let req :=
    {| Http.verb := "POST"; Http.pathname := "/mcp/messages";
       Http.sessionIdFromQuery := None; Http.sessionIdFromHeader := None;
       Http.authorization := Some ("Bearer " ++ Sample.token);
       Http.json := Http.SyntaxError "Unexpected end of JSON input" |} in
  Http.extractSessionId req = None
  ∧ @Http.handleRequest Sample.crypto None Sample.later Sample.manager req
    = (Sample.manager, None).
Proof.
  intros req. split; [reflexivity |].
  apply (unparsable_body (crypto := Sample.crypto) None Sample.later Sample.manager req
           "Unexpected end of JSON input").
  - split; reflexivity.
  - exists ("Bearer " ++ Sample.token). split_and!; reflexivity.
  - reflexivity.
  - reflexivity.
Defined.

Lemma initialize_with_session_witness :
  let req :=
    Sample.request (Some Sample.sid) (Some Sample.sid) (Some (Mcp.IdNumber 2)) "initialize" in
  Http.extractSessionId req = Some Sample.sid
  ∧ dom (Auth.sessions
           (Auth.validateSession Sample.manager (clock Sample.later) Sample.sid).1)
    = dom (Auth.sessions Sample.manager).
Proof.
  intros req. split; [reflexivity |].
  rewrite sample_validation.
  exact (proj2 (initialize_with_session (crypto := Sample.crypto) None Sample.later
                  Sample.manager req Sample.sid _ _
                  {| Mcp.id := Some (Mcp.IdNumber 2); Mcp.method := "initialize" |}
                  (sample_at_endpoint _ _ _ _) (sample_bearer_accepted _ _ _ _)
                  eq_refl sample_validation eq_refl eq_refl)).
Defined.

Lemma handshake_then_use_witness :
  let first := Sample.request None None (Some (Mcp.IdNumber 1)) "initialize" in
  let req :=
    Sample.request (Some Sample.sid) (Some Sample.sid) (Some (Mcp.IdNumber 2)) "list_agents" in
  clock Sample.later ≤ clock Sample.env + 30 * 60 * 1000
  ∧ (@Http.handleRequest Sample.crypto None Sample.later Sample.manager req).2
    = Some (Http.active None (Auth.set_lastActivity Sample.session (clock Sample.later))
              Sample.sid (Http.json req)).
Proof.
  intros first req.
  assert (Hlive : clock Sample.later ≤ clock Sample.env + 30 * 60 * 1000)
    by (vm_compute; discriminate).
  split; [exact Hlive |].
  destruct (handshake_then_use (crypto := Sample.crypto) None Sample.env Sample.later
              (Auth.new "default-secret-change-in-production") first req
              {| Mcp.id := Some (Mcp.IdNumber 1); Mcp.method := "initialize" |}
              (sample_at_endpoint _ _ _ _) (sample_bearer_accepted _ _ _ _)
              eq_refl eq_refl eq_refl
              (sample_at_endpoint _ _ _ _) (sample_bearer_accepted _ _ _ _) eq_refl)
    as (_ & Huse & _).
  exact (f_equal snd (Huse Hlive)).
Defined.

Lemma serve_store_shape_witness :
  let run :=
    [ (Sample.env, Sample.request None None (Some (Mcp.IdNumber 1)) "initialize");
      (Sample.later,
       Sample.request (Some Sample.sid) (Some Sample.sid) (Some (Mcp.IdNumber 2))
         "list_agents") ] in
  let touched := Auth.set_lastActivity Sample.session (clock Sample.later) in
  Auth.sessions (@Http.serve Sample.crypto None (Auth.new "k") run).1 !! Sample.sid
  = Some touched
  ∧ Auth.id touched = Sample.sid
  ∧ Auth.userId touched = "demo-user"
  ∧ Auth.scopes touched = ["read"; "write"]
  ∧ Auth.expiresAt touched = Auth.createdAt touched + 30 * 60 * 1000.
Proof.
  intros run touched.
  assert (Hget : Auth.sessions (@Http.serve Sample.crypto None (Auth.new "k") run).1
                   !! Sample.sid = Some touched) by (vm_compute; reflexivity).
  split; [exact Hget |].
  exact (serve_store_shape (crypto := Sample.crypto) None "k" run Sample.sid touched Hget).
Defined.
